(** * balQt: the Qt binding resolver and the overlay [StackedWidget]

    A shallow embedding of [balQt/__init__.py] (the module-level binding scan
    and [import_qt_module]) and of [balQt/stacked_widget.py] (the constructor,
    [showEvent] and [resizeEvent] of [StackedWidget]).

    Python integers are unbounded, so they are [Z]; [//] is floor division,
    which is [Z.div].  The widgets handed to [StackedWidget] are objects of
    the toolkit; the model keeps, per widget, the properties the code reads
    and the values the code hands to the toolkit's setters, and logs every
    call the methods issue on them.  What the toolkit itself does with a
    value (clamping a size, laying out children) is outside the model.

    The file has three parts: the model, the definitions the properties are
    stated with, and the properties. *)

From Stdlib Require Import ZArith List String Bool Lia.
Import ListNotations.

Local Open Scope Z_scope.

(** * Part 1: the model *)

(** ** The part of the toolkit the widget code relies on *)

(** [Qt.AlignmentFlag], [Qt.LayoutDirection]: the values of the toolkit's
    [Qt] namespace.  [AlignLeading] and [AlignTrailing] are declared there as
    synonyms of [AlignLeft] and [AlignRight], and [AlignCenter] as
    [AlignVCenter | AlignHCenter]. *)
Module Qt.

Definition AlignLeft     : Z := 0x0001.
Definition AlignLeading  : Z := AlignLeft.
Definition AlignRight    : Z := 0x0002.
Definition AlignTrailing : Z := AlignRight.
Definition AlignHCenter  : Z := 0x0004.
Definition AlignJustify  : Z := 0x0008.
Definition AlignAbsolute : Z := 0x0010.
Definition AlignTop      : Z := 0x0020.
Definition AlignBottom   : Z := 0x0040.
Definition AlignVCenter  : Z := 0x0080.
Definition AlignBaseline : Z := 0x0100.
Definition AlignCenter   : Z := Z.lor AlignVCenter AlignHCenter.

Variant LayoutDirection := LeftToRight | RightToLeft | LayoutDirectionAuto.

Definition LayoutDirection_eqb (a b : LayoutDirection) : bool :=
  match a, b with
  | LeftToRight, LeftToRight
  | RightToLeft, RightToLeft
  | LayoutDirectionAuto, LayoutDirectionAuto => true
  | _, _ => false
  end.

End Qt.

(** [QSize]: a width and a height. *)
Module QSize.

Record t := make { width : Z; height : Z }.

End QSize.

(** [QRect]: the toolkit stores the two corners, both inclusive.  The
    constructor [QRect(x, y, w, h)] puts the second corner at
    [(x + w - 1, y + h - 1)], so [right()] is [left() + width() - 1] and
    [bottom()] is [top() + height() - 1]. *)
Module QRect.

Record t := corners { x1 : Z; y1 : Z; x2 : Z; y2 : Z }.

Definition make (x y w h : Z) : t :=
  {| x1 := x; y1 := y; x2 := x + w - 1; y2 := y + h - 1 |}.

Definition left   (r : t) : Z := x1 r.
Definition top    (r : t) : Z := y1 r.
Definition right  (r : t) : Z := x2 r.
Definition bottom (r : t) : Z := y2 r.
Definition width  (r : t) : Z := x2 r - x1 r + 1.
Definition height (r : t) : Z := y2 r - y1 r + 1.

(** [getRect]: position and size, the four numbers [make] was given. *)
Definition getRect (r : t) : Z * Z * Z * Z :=
  (left r, top r, width r, height r).

End QRect.

(** [QSizePolicy.Policy], and the horizontal and vertical policy of a
    widget. *)
Module QSizePolicy.

Variant Policy :=
  Fixed | Minimum | Maximum | Preferred | MinimumExpanding | Expanding | Ignored.

Record t := make { horizontalPolicy : Policy; verticalPolicy : Policy }.

End QSizePolicy.

(** A widget of the toolkit, as far as the overlay reads or writes it.
    [geometry], [minimumWidth], [minimumHeight] and [sizePolicy] hold what
    was last handed to the corresponding setter; [sizeHint] is the preferred
    size and [layoutDirection] the current direction, which the toolkit owns. *)
Module QWidget.

Record t := make {
  geometry        : QRect.t;
  sizeHint        : QSize.t;
  layoutDirection : Qt.LayoutDirection;
  minimumWidth    : Z;
  minimumHeight   : Z;
  sizePolicy      : QSizePolicy.t
}.

Definition setGeometry (x y w h : Z) (q : t) : t :=
  {| geometry := QRect.make x y w h;
     sizeHint := sizeHint q;
     layoutDirection := layoutDirection q;
     minimumWidth := minimumWidth q;
     minimumHeight := minimumHeight q;
     sizePolicy := sizePolicy q |}.

Definition setMinimumWidth (v : Z) (q : t) : t :=
  {| geometry := geometry q;
     sizeHint := sizeHint q;
     layoutDirection := layoutDirection q;
     minimumWidth := v;
     minimumHeight := minimumHeight q;
     sizePolicy := sizePolicy q |}.

Definition setMinimumHeight (v : Z) (q : t) : t :=
  {| geometry := geometry q;
     sizeHint := sizeHint q;
     layoutDirection := layoutDirection q;
     minimumWidth := minimumWidth q;
     minimumHeight := v;
     sizePolicy := sizePolicy q |}.

Definition setSizePolicy (h v : QSizePolicy.Policy) (q : t) : t :=
  {| geometry := geometry q;
     sizeHint := sizeHint q;
     layoutDirection := layoutDirection q;
     minimumWidth := minimumWidth q;
     minimumHeight := minimumHeight q;
     sizePolicy := QSizePolicy.make h v |}.

End QWidget.

(** Events reach the handlers as objects, or as [None] when [showEvent]
    calls [resizeEvent] itself. *)
Variant QEvent :=
| QResizeEvent (size oldSize : QSize.t)
| QShowEvent.

(** ** [StackedWidget] *)

Module StackedWidget.

Variant Target := Bottom | Top.

(** The calls the methods issue on the two widgets and on the superclass. *)
Variant Call :=
| addWidget (w : Target)
| setParent (w : Target)
| setMinimumWidth (w : Target) (v : Z)
| setMinimumHeight (w : Target) (v : Z)
| setSizePolicy (w : Target) (h v : QSizePolicy.Policy)
| setGeometry (w : Target) (x y width height : Z)
| super_showEvent (e : QEvent)
| super_resizeEvent (e : QEvent).

(** The attributes of the object, and [calls], the log of the calls issued
    so far. *)
Record t := make {
  margin        : Z;
  alignment     : Z;
  bottom_widget : QWidget.t;
  top_widget    : QWidget.t;
  calls         : list Call
}.

(** [x in [a, b, ...]] on alignment values. *)
Definition py_in (a : Z) (l : list Z) : bool := existsb (Z.eqb a) l.

Definition log (c : Call) (self : t) : t :=
  {| margin := margin self; alignment := alignment self;
     bottom_widget := bottom_widget self; top_widget := top_widget self;
     calls := calls self ++ [c] |}.

Definition on_bottom (f : QWidget.t -> QWidget.t) (self : t) : t :=
  {| margin := margin self; alignment := alignment self;
     bottom_widget := f (bottom_widget self); top_widget := top_widget self;
     calls := calls self |}.

Definition on_top (f : QWidget.t -> QWidget.t) (self : t) : t :=
  {| margin := margin self; alignment := alignment self;
     bottom_widget := bottom_widget self; top_widget := f (top_widget self);
     calls := calls self |}.

Definition on (w : Target) : (QWidget.t -> QWidget.t) -> t -> t :=
  match w with Bottom => on_bottom | Top => on_top end.

Definition widget (w : Target) (self : t) : QWidget.t :=
  match w with Bottom => bottom_widget self | Top => top_widget self end.

(** The setters, as calls on [self.bottom_widget] or [self.top_widget]. *)
Definition do_setMinimumWidth (w : Target) (v : Z) (self : t) : t :=
  log (setMinimumWidth w v) (on w (QWidget.setMinimumWidth v) self).

Definition do_setMinimumHeight (w : Target) (v : Z) (self : t) : t :=
  log (setMinimumHeight w v) (on w (QWidget.setMinimumHeight v) self).

Definition do_setSizePolicy (w : Target) (h v : QSizePolicy.Policy) (self : t) : t :=
  log (setSizePolicy w h v) (on w (QWidget.setSizePolicy h v) self).

Definition do_setGeometry (w : Target) (x y width height : Z) (self : t) : t :=
  log (setGeometry w x y width height)
      (on w (QWidget.setGeometry x y width height) self).

Definition hint_width (w : Target) (self : t) : Z :=
  QSize.width (QWidget.sizeHint (widget w self)).

Definition hint_height (w : Target) (self : t) : Z :=
  QSize.height (QWidget.sizeHint (widget w self)).

(** [StackedWidget.__init__(bottom_widget, top_widget, parent, margin,
    alignment)].  The parent only goes to the superclass constructor. *)
Definition __init__ (bottom_widget top_widget : QWidget.t)
    (margin : Z) (alignment : Z) : t :=
  let self := make margin alignment bottom_widget top_widget [] in
  let self := log (addWidget Bottom) self in
  let self := log (setParent Top) self in
  if py_in alignment
       [Qt.AlignRight; Qt.AlignLeft; Qt.AlignLeading; Qt.AlignTrailing] then
    do_setMinimumWidth Bottom
      (hint_width Bottom self + 2 * (hint_width Top self + margin)) self
  else if py_in alignment [Qt.AlignTop; Qt.AlignBottom] then
    do_setMinimumHeight Bottom
      (hint_height Bottom self + 2 * (hint_height Top self + margin)) self
  else
    let self :=
      if py_in alignment [Qt.AlignAbsolute; Qt.AlignJustify] then
        let width := Z.max (hint_width Top self) (hint_width Bottom self) in
        let self := do_setMinimumWidth Top width self in
        let self := do_setMinimumWidth Bottom (width + margin) self in
        do_setSizePolicy Top QSizePolicy.MinimumExpanding
          (QSizePolicy.verticalPolicy (QWidget.sizePolicy (widget Top self))) self
      else self in
    let self :=
      if py_in alignment [Qt.AlignBaseline; Qt.AlignJustify] then
        let height := Z.max (hint_height Top self) (hint_height Bottom self) in
        let self := do_setMinimumHeight Top height self in
        let self := do_setMinimumHeight Bottom (height + margin) self in
        do_setSizePolicy Top
          (QSizePolicy.horizontalPolicy (QWidget.sizePolicy (widget Top self)))
          QSizePolicy.MinimumExpanding self
      else self in
    if py_in alignment [Qt.AlignCenter; Qt.AlignVCenter; Qt.AlignHCenter] then
      let margin_horizontal :=
        if py_in alignment [Qt.AlignCenter; Qt.AlignHCenter] then margin else 0 in
      let margin_vertical :=
        if py_in alignment [Qt.AlignCenter; Qt.AlignVCenter] then margin else 0 in
      let self :=
        do_setMinimumWidth Bottom
          (Z.max (hint_width Bottom self) (hint_width Top self + margin_horizontal))
          self in
      do_setMinimumHeight Bottom
        (Z.max (hint_height Bottom self) (hint_height Top self + margin_vertical))
        self
    else self.

(** [StackedWidget.resizeEvent(event)]. *)
Definition resizeEvent (self : t) (event : option QEvent) : t :=
  let geometry := QWidget.geometry (bottom_widget self) in
  let top_width := hint_width Top self in
  let top_height := hint_height Top self in
  let self :=
    if (alignment self =? Qt.AlignRight)
       || ((alignment self =? Qt.AlignLeading)
           && Qt.LayoutDirection_eqb
                (QWidget.layoutDirection (bottom_widget self)) Qt.RightToLeft)
       || ((alignment self =? Qt.AlignTrailing)
           && Qt.LayoutDirection_eqb
                (QWidget.layoutDirection (bottom_widget self)) Qt.LeftToRight) then
      do_setGeometry Top
        (QRect.right geometry - margin self - top_width)
        (QRect.top geometry + (QRect.height geometry - top_height) / 2)
        top_width
        top_height self
    else if (alignment self =? Qt.AlignLeft)
            || ((alignment self =? Qt.AlignLeading)
                && Qt.LayoutDirection_eqb
                     (QWidget.layoutDirection (bottom_widget self)) Qt.LeftToRight)
            || ((alignment self =? Qt.AlignTrailing)
                && Qt.LayoutDirection_eqb
                     (QWidget.layoutDirection (bottom_widget self)) Qt.RightToLeft) then
      do_setGeometry Top
        (QRect.left geometry + margin self)
        (QRect.top geometry + (QRect.height geometry - top_height) / 2)
        top_width
        top_height self
    else if alignment self =? Qt.AlignTop then
      do_setGeometry Top
        (QRect.left geometry + (QRect.width geometry - top_width) / 2)
        (QRect.top geometry + margin self)
        top_width
        top_height self
    else if alignment self =? Qt.AlignBottom then
      do_setGeometry Top
        (QRect.left geometry + (QRect.width geometry - top_width) / 2)
        (QRect.bottom geometry - margin self - top_height)
        top_width
        top_height self
    else if py_in (alignment self)
              [Qt.AlignCenter; Qt.AlignVCenter; Qt.AlignHCenter] then
      do_setGeometry Top
        (QRect.left geometry + (QRect.width geometry - top_width) / 2
         + (if alignment self =? Qt.AlignVCenter then 0 else margin self))
        (QRect.top geometry + (QRect.height geometry - top_height) / 2
         + (if alignment self =? Qt.AlignHCenter then 0 else margin self))
        top_width
        top_height self
    else if alignment self =? Qt.AlignJustify then
      do_setGeometry Top
        (QRect.left geometry + margin self / 2)
        (QRect.top geometry + margin self / 2)
        (QRect.width geometry - margin self)
        (QRect.height geometry - margin self) self
    else if alignment self =? Qt.AlignAbsolute then
      do_setGeometry Top
        (QRect.left geometry + margin self / 2)
        (QRect.top geometry + (QRect.height geometry - top_height) / 2)
        (QRect.width geometry - margin self)
        top_height self
    else if alignment self =? Qt.AlignBaseline then
      do_setGeometry Top
        (QRect.left geometry + (QRect.width geometry - top_width) / 2)
        (QRect.top geometry + margin self / 2)
        top_width
        (QRect.height geometry - margin self) self
    else self in
  match event with
  | Some e => log (super_resizeEvent e) self
  | None => self
  end.

(** [StackedWidget.showEvent(event)]. *)
Definition showEvent (self : t) (event : QEvent) : t :=
  let self := resizeEvent self None in
  log (super_showEvent event) self.

End StackedWidget.

(** ** The binding resolver of [balQt/__init__.py] *)

Module Python.

(** The exceptions the resolver tells apart: [ImportError] (with its
    message, which is what [str(e)] gives), any other exception derived
    from [Exception], and the exceptions that derive from [BaseException]
    only, which [except Exception] lets through. *)
Variant exn :=
| ImportError (msg : string)
| OtherException (msg : string)
| NonException (msg : string).

Definition is_ImportError (e : exn) : bool :=
  match e with ImportError _ => true | _ => false end.

Definition is_Exception (e : exn) : bool :=
  match e with NonException _ => false | _ => true end.

Definition str (e : exn) : string :=
  match e with ImportError m | OtherException m | NonException m => m end.

Variant result (A : Type) :=
| Ok (a : A)
| Raise (e : exn).

Arguments Ok {A} a.
Arguments Raise {A} e.

(** A module object, known by its qualified name. *)
Record ModuleType := { __name__ : string }.

(** The interpreter the package is imported in: which names are keys of
    [sys.modules], and what [importlib.import_module] does for a name.  The
    outcome of an import is taken to depend on the name only. *)
Record Interp := {
  sys_modules   : string -> bool;
  import_module : string -> result ModuleType
}.

(** Computations that may raise, with the log of the names handed to
    [importlib.import_module] so far. *)
Definition M (A : Type) : Type := list string -> result A * list string.

Definition ret {A} (a : A) : M A := fun tr => (Ok a, tr).

Definition raise {A} (e : exn) : M A := fun tr => (Raise e, tr).

Definition bind {A B} (c : M A) (k : A -> M B) : M B :=
  fun tr =>
    match c tr with
    | (Ok a, tr') => k a tr'
    | (Raise e, tr') => (Raise e, tr')
    end.

(** [try: body / except <catches> as e: handler e / else: orelse]. *)
Definition try_except {A B} (body : M A) (catches : exn -> bool)
    (handler : exn -> M B) (orelse : A -> M B) : M B :=
  fun tr =>
    match body tr with
    | (Ok a, tr') => orelse a tr'
    | (Raise e, tr') => if catches e then handler e tr' else (Raise e, tr')
    end.

Definition importlib_import_module (env : Interp) (name : string) : M ModuleType :=
  fun tr => (import_module env name, (tr ++ [name])%list).

(** Truth value of an [Optional[str]]. *)
Definition truthy (s : option string) : bool :=
  match s with
  | None => false
  | Some EmptyString => false
  | Some _ => true
  end.

End Python.

Module balQt.

Import Python.
Local Open Scope string_scope.

Notation "x <- c ;; k" := (bind c (fun x => k))
  (at level 61, c at next level, right associativity).

Definition supported_qt_bindings : list string :=
  ["PySide6"; "PyQt6"; "PyQt5"; "PySide2"; "PyQt4"; "PySide"].

Definition QtCore (qt_binding : string) : string := qt_binding ++ ".QtCore".

(** The first loop: bindings that are already in [sys.modules]. *)
Fixpoint scan_loaded (env : Interp) (bindings : list string)
    (QtBindings : option string) : M (option string) :=
  match bindings with
  | [] => ret QtBindings
  | qt_binding :: rest =>
      if sys_modules env qt_binding then
        try_except (importlib_import_module env (QtCore qt_binding))
          is_Exception
          (fun _ => scan_loaded env rest QtBindings)
          (fun _ => ret (Some qt_binding))
      else scan_loaded env rest QtBindings
  end.

(** The second loop: every binding in order. *)
Fixpoint scan_all (env : Interp) (bindings : list string)
    (QtBindings : option string) : M (option string) :=
  match bindings with
  | [] => ret QtBindings
  | qt_binding :: rest =>
      try_except (importlib_import_module env (QtCore qt_binding))
        is_ImportError
        (fun _ => scan_all env rest QtBindings)
        (fun _ => ret (Some qt_binding))
  end.

Definition no_binding_message : string :=
  "Cannot load any of the supported Qt bindings: PySide6, PyQt6, PyQt5, PySide2, PyQt4, PySide".

(** The module-level scan that sets the global [QtBindings]. *)
Definition QtBindings_scan (env : Interp) : M (option string) :=
  QtBindings <- scan_loaded env supported_qt_bindings None ;;
  QtBindings <- (if negb (truthy QtBindings)
                 then scan_all env supported_qt_bindings QtBindings
                 else ret QtBindings) ;;
  if negb (truthy QtBindings)
  then raise (ImportError no_binding_message)
  else ret QtBindings.

(** [import_qt_module(module_name)], with the global [QtBindings] it reads. *)
Definition import_qt_module (env : Interp) (QtBindings : option string)
    (module_name : string) : M ModuleType :=
  match QtBindings with
  | Some binding =>
      if truthy QtBindings then
        try_except (importlib_import_module env (binding ++ "." ++ module_name))
          is_ImportError
          (fun e => raise (ImportError
             ("Module '" ++ module_name ++ "' could not be loaded: " ++ str e)))
          ret
      else raise (ImportError "No Qt binding loaded.")
  | None => raise (ImportError "No Qt binding loaded.")
  end.

End balQt.

(** ** The import hook and the export list of [balQt/__init__.py] *)

(** The operations on [str] the hook uses. *)
Module PyStr.

(** [s.startswith(p)]. *)
Definition startswith (s p : string) : bool := String.prefix p s.

(** [s[n:]]. *)
Fixpoint drop (n : nat) (s : string) : string :=
  match n, s with
  | O, _ => s
  | S _, EmptyString => EmptyString
  | S k, String _ rest => drop k rest
  end.

(** [re.sub('^p', '', s)] for a literal [p]: the pattern is anchored at the
    start of the string, so it matches once or not at all. *)
Definition sub_prefix (p s : string) : string :=
  if String.prefix p s then drop (String.length p) s else s.

(** [s.replace(old, new)] for a non-empty [old]: the occurrences are found
    from the left and do not overlap; [skip] counts the characters of the
    occurrence just replaced that are still to be passed. *)
Fixpoint replace_from (old new : string) (skip : nat) (s : string) : string :=
  match s with
  | EmptyString => EmptyString
  | String c rest =>
      match skip with
      | S k => replace_from old new k rest
      | O =>
          if String.prefix old s
          then (new ++ replace_from old new (String.length old - 1) rest)%string
          else String c (replace_from old new 0 rest)
      end
  end.

(** [s.replace('', new)]: [new] goes before every character and at the end. *)
Fixpoint intersperse (new s : string) : string :=
  match s with
  | EmptyString => new
  | String c rest => (new ++ String c (intersperse new rest))%string
  end.

Definition replace (s old new : string) : string :=
  match old with
  | EmptyString => intersperse new s
  | String _ _ => replace_from old new 0 s
  end.

(** [x in l] on strings. *)
Definition py_in (x : string) (l : list string) : bool :=
  existsb (String.eqb x) l.

End PyStr.

Module Hook.

Import Python PyStr.
Local Open Scope string_scope.

Record QtModuleLoader := { module_name : string }.

Record ModuleSpec := { name : string; loader : QtModuleLoader }.

Record QtModuleFinder := { package_name : string }.

(** [QtModuleFinder.find_spec(name, path, target)], with the globals
    [QtBindings] and [balQt_attributes] it reads; [None] is [None].  Building
    the loader and the spec stores the two names and raises nothing. *)
Definition find_spec (self : QtModuleFinder) (QtBindings : string)
    (balQt_attributes : list string) (name : string) : option ModuleSpec :=
  if startswith name (package_name self) then
    if py_in (sub_prefix "balQt." name) balQt_attributes then None
    else
      let qt_module_name := replace name "balQt" QtBindings in
      Some {| name := name; loader := {| module_name := qt_module_name |} |}
  else None.

(** [QtModuleLoader.create_module(spec)]. *)
Definition create_module (self : QtModuleLoader) (spec : ModuleSpec) : ModuleType :=
  {| __name__ := name spec |}.

(** [sys.modules] as a dictionary. *)
Definition modules := string -> option ModuleType.

Definition setitem (d : modules) (key : string) (value : ModuleType) : modules :=
  fun k => if String.eqb k key then Some value else d k.

(** [importlib.import_module] with what it does to [sys.modules]. *)
Record Importer := {
  run_import : string -> modules -> result ModuleType * modules
}.

(** [QtModuleLoader.exec_module(module)].  The result is the module object
    after [module.__dict__.update(imported_module.__dict__)], which gives it
    every attribute of the imported module, and [sys.modules] at the end. *)
Definition exec_module (imp : Importer) (self : QtModuleLoader)
    (module : ModuleType) (sys_modules : modules) : result ModuleType * modules :=
  match run_import imp (module_name self) sys_modules with
  | (Ok imported_module, sys_modules) =>
      let sys_modules := setitem sys_modules (__name__ module) imported_module in
      (Ok {| __name__ := __name__ imported_module |}, sys_modules)
  | (Raise e, sys_modules) =>
      if is_ImportError e
      then (Raise (ImportError
              ("Module '" ++ module_name self ++ "' could not be loaded.")),
            sys_modules)
      else (Raise e, sys_modules)
  end.

(** The last step of the module: [__all__] starts as [balQt_attributes] and
    gets the names of the binding's own [__all__] that are not in it;
    [module_all] is [getattr(qt_module, '__all__', None)]. *)
Definition extend_all (env : Interp) (module_all : ModuleType -> option (list string))
    (QtBindings : option string) (balQt_attributes : list string) : M (list string) :=
  let __all__ := balQt_attributes in
  match QtBindings with
  | Some binding =>
      if truthy QtBindings then
        try_except (importlib_import_module env binding)
          is_Exception
          (fun _ => ret __all__)
          (fun qt_module =>
             let qt_all := match module_all qt_module with
                           | Some l => l
                           | None => []
                           end in
             ret (balQt_attributes
                  ++ filter (fun item => negb (py_in item balQt_attributes)) qt_all)%list)
      else ret __all__
  | None => ret __all__
  end.

(** [__getattr__(name)] of the package. *)
Definition __getattr__ (env : Interp) (QtBindings : option string) (name : string)
  : M ModuleType :=
  balQt.import_qt_module env QtBindings name.

End Hook.

Import StackedWidget Python balQt.

(** * Part 2: definitions the properties are stated with *)

(** ** Overlay *)

(** The rectangle of the top widget, as position and size. *)
Definition top_rect (self : StackedWidget.t) : Z * Z * Z * Z :=
  QRect.getRect (QWidget.geometry (top_widget self)).

(** The layout of the container gives the bottom widget its geometry
    between construction and the first resize; the overlay only reads it. *)
Definition laid_out (g : QRect.t) (self : StackedWidget.t) : StackedWidget.t :=
  on_bottom (fun q =>
    QWidget.make g (QWidget.sizeHint q) (QWidget.layoutDirection q)
      (QWidget.minimumWidth q) (QWidget.minimumHeight q) (QWidget.sizePolicy q))
    self.

(** The tail of [resizeEvent]: the superclass handler runs for a real
    event only. *)
Definition with_super (event : option QEvent) (self : StackedWidget.t) : StackedWidget.t :=
  match event with
  | Some e => log (super_resizeEvent e) self
  | None => self
  end.

(** The rectangles of the table, from the geometry of the bottom widget. *)
Definition right_rect (self : StackedWidget.t) : Z * Z * Z * Z :=
  let G := QWidget.geometry (bottom_widget self) in
  (QRect.right G - margin self - hint_width Top self,
   QRect.top G + (QRect.height G - hint_height Top self) / 2,
   hint_width Top self, hint_height Top self).

Definition left_rect (self : StackedWidget.t) : Z * Z * Z * Z :=
  let G := QWidget.geometry (bottom_widget self) in
  (QRect.left G + margin self,
   QRect.top G + (QRect.height G - hint_height Top self) / 2,
   hint_width Top self, hint_height Top self).

Definition top_edge_rect (self : StackedWidget.t) : Z * Z * Z * Z :=
  let G := QWidget.geometry (bottom_widget self) in
  (QRect.left G + (QRect.width G - hint_width Top self) / 2,
   QRect.top G + margin self,
   hint_width Top self, hint_height Top self).

Definition bottom_edge_rect (self : StackedWidget.t) : Z * Z * Z * Z :=
  let G := QWidget.geometry (bottom_widget self) in
  (QRect.left G + (QRect.width G - hint_width Top self) / 2,
   QRect.bottom G - margin self - hint_height Top self,
   hint_width Top self, hint_height Top self).

(** The centre rectangle, the margin added on the axes [mx] and [my]
    select. *)
Definition centre_rect (mx my : bool) (self : StackedWidget.t) : Z * Z * Z * Z :=
  let G := QWidget.geometry (bottom_widget self) in
  (QRect.left G + (QRect.width G - hint_width Top self) / 2
   + (if mx then margin self else 0),
   QRect.top G + (QRect.height G - hint_height Top self) / 2
   + (if my then margin self else 0),
   hint_width Top self, hint_height Top self).

(** The centre row as the table words it: the margin is added to [x] unless
    the alignment is HCenter, and to [y] unless it is VCenter. *)
Definition centre_rect_as_worded (self : StackedWidget.t) : Z * Z * Z * Z :=
  centre_rect (negb (alignment self =? Qt.AlignHCenter))
              (negb (alignment self =? Qt.AlignVCenter)) self.

(** The alignments [resizeEvent] has a branch for. *)
Definition handled_alignments : list Z :=
  [Qt.AlignRight; Qt.AlignLeft; Qt.AlignLeading; Qt.AlignTrailing; Qt.AlignTop;
   Qt.AlignBottom; Qt.AlignCenter; Qt.AlignHCenter; Qt.AlignVCenter;
   Qt.AlignJustify; Qt.AlignAbsolute; Qt.AlignBaseline].

(** What [resizeEvent] reads. *)
Definition resize_inputs (self : StackedWidget.t) :=
  (alignment self, margin self, QWidget.geometry (bottom_widget self),
   QWidget.layoutDirection (bottom_widget self),
   QWidget.sizeHint (top_widget self)).

Definition is_super_resizeEvent (c : Call) : bool :=
  match c with super_resizeEvent _ => true | _ => false end.

Definition is_top_setGeometry (c : Call) : bool :=
  match c with setGeometry Top _ _ _ _ => true | _ => false end.

(** The overlay of the test table: built with margin 10, laid out so that
    the bottom widget has the geometry [(0, 0, 200, 100)]. *)
Definition table_overlay (bottom top : QWidget.t) (a : Z) : StackedWidget.t :=
  laid_out (QRect.make 0 0 200 100) (__init__ bottom top 10 a).

(** The widgets of [example.py]: a button below, a check box on top, here
    with the preferred size [(40, 20)] of the table. *)
Definition button (direction : Qt.LayoutDirection) : QWidget.t :=
  QWidget.make (QRect.make 0 0 100 30) (QSize.make 75 23) direction 0 0
    (QSizePolicy.make QSizePolicy.Minimum QSizePolicy.Fixed).

Definition checkbox : QWidget.t :=
  QWidget.make (QRect.make 0 0 100 30) (QSize.make 40 20) Qt.LeftToRight 0 0
    (QSizePolicy.make QSizePolicy.Minimum QSizePolicy.Fixed).

Definition a_resize : QEvent :=
  QResizeEvent (QSize.make 200 100) (QSize.make 100 30).

(** ** Binding scan *)


(** A binding the first loop passes over: it is not in [sys.modules], or
    the import of its [QtCore] raises an exception that [except Exception]
    catches. *)
Definition passed_over (env : Interp) (b : string) : Prop :=
  sys_modules env b = false
  \/ exists e, import_module env (QtCore b) = Raise e /\ is_Exception e = true.

Definition importable (env : Interp) (b : string) : Prop :=
  exists m, import_module env (QtCore b) = Ok m.

(** A binding that cannot be loaded: the import of its [QtCore] raises
    [ImportError]. *)
Definition not_importable (env : Interp) (b : string) : Prop :=
  exists msg, import_module env (QtCore b) = Raise (ImportError msg).

(** [msg] names [s]: [s] occurs in it. *)
Definition names (msg s : string) : Prop :=
  exists before after, msg = (before ++ s ++ after)%string.

(** Two interpreters: one with PyQt5 loaded and PySide6 installed as well,
    one with no binding installed. *)
Definition no_module (name : string) : result ModuleType :=
  Raise (ImportError ("No module named '" ++ name ++ "'")%string).

Definition with_PyQt5_loaded : Interp :=
  {| sys_modules := fun name => String.eqb name "PyQt5";
     import_module := fun name =>
       if String.eqb name "PyQt5.QtCore" || String.eqb name "PySide6.QtCore"
          || String.eqb name "PyQt5.QtWidgets"
       then Ok {| __name__ := name |}
       else no_module name |}.

Definition without_bindings : Interp :=
  {| sys_modules := fun _ => false; import_module := no_module |}.

(** ** Further definitions for the overlay *)

(** The geometry [resizeEvent] leaves on the top widget. *)
Definition placed (self : StackedWidget.t) (event : option QEvent) : QRect.t :=
  QWidget.geometry (top_widget (resizeEvent self event)).

(** [r] lies between the left and right edges of [G], or between its top
    and bottom edges. *)
Definition inside_across (r G : QRect.t) : Prop :=
  QRect.left G <= QRect.left r /\ QRect.right r <= QRect.right G.

Definition inside_down (r G : QRect.t) : Prop :=
  QRect.top G <= QRect.top r /\ QRect.bottom r <= QRect.bottom G.

(** [r.translated(dx, dy)]. *)
Definition translated (dx dy : Z) (r : QRect.t) : QRect.t :=
  QRect.corners (QRect.x1 r + dx) (QRect.y1 r + dy) (QRect.x2 r + dx) (QRect.y2 r + dy).

(** The overlay after the layout has moved the bottom widget by
    [(dx, dy)]. *)
Definition moved (dx dy : Z) (self : StackedWidget.t) : StackedWidget.t :=
  laid_out (translated dx dy (QWidget.geometry (bottom_widget self))) self.

(** The rectangles of the three stretching alignments. *)
Definition justify_rect (self : StackedWidget.t) : Z * Z * Z * Z :=
  let G := QWidget.geometry (bottom_widget self) in
  (QRect.left G + margin self / 2, QRect.top G + margin self / 2,
   QRect.width G - margin self, QRect.height G - margin self).

Definition absolute_rect (self : StackedWidget.t) : Z * Z * Z * Z :=
  let G := QWidget.geometry (bottom_widget self) in
  (QRect.left G + margin self / 2,
   QRect.top G + (QRect.height G - hint_height Top self) / 2,
   QRect.width G - margin self, hint_height Top self).

Definition baseline_rect (self : StackedWidget.t) : Z * Z * Z * Z :=
  let G := QWidget.geometry (bottom_widget self) in
  (QRect.left G + (QRect.width G - hint_width Top self) / 2,
   QRect.top G + margin self / 2,
   hint_width Top self, QRect.height G - margin self).

(** A call of the constructor that keeps the minimum size of the bottom
    widget at or above its preferred size [(bw, bh)]. *)
Definition keeps_preferred (bw bh : Z) (c : Call) : Prop :=
  match c with
  | setMinimumWidth Bottom v => bw <= v
  | setMinimumHeight Bottom v => bh <= v
  | _ => True
  end.

Definition is_setGeometry (c : Call) : bool :=
  match c with setGeometry _ _ _ _ _ => true | _ => false end.

(** An overlay as the constructor leaves it, the bottom widget then laid
    out with geometry [G]. *)
Definition built (bottom top : QWidget.t) (m a : Z) (G : QRect.t) : StackedWidget.t :=
  laid_out G (__init__ bottom top m a).

(** ** Further definitions for the resolver and the hook *)

(** [old] occurs in [s]. *)
Fixpoint occurs (old s : string) : bool :=
  match s with
  | EmptyString => String.prefix old EmptyString
  | String _ rest => String.prefix old s || occurs old rest
  end.

Definition the_finder : Hook.QtModuleFinder := {| Hook.package_name := "balQt" |}.

(** An importer that knows the modules of PyQt5 and registers what it
    imports under its own name. *)
Definition PyQt5_importer : Hook.Importer :=
  {| Hook.run_import := fun name d =>
       if String.prefix "PyQt5." name
       then (Ok {| __name__ := name |}, Hook.setitem d name {| __name__ := name |})
       else (no_module name, d) |}.

Definition no_modules : Hook.modules := fun _ => None.

(** An interpreter in which PySide6 is installed but raises on import, and
    PyQt5 is installed and sound. *)
Definition with_broken_PySide6 : Interp :=
  {| sys_modules := fun _ => false;
     import_module := fun name =>
       if String.eqb name "PySide6.QtCore" then Raise (OtherException "broken")
       else if String.eqb name "PyQt5.QtCore" || String.eqb name "PyQt5"
       then Ok {| __name__ := name |}
       else no_module name |}.

(** ** Definitions for the resolver as the specification words it *)





(** The calls of the constructor after the first two: setters of a minimum
    size or of the size policy. *)
Definition is_size_setter (c : Call) : bool :=
  match c with
  | setMinimumWidth _ _ | setMinimumHeight _ _ | setSizePolicy _ _ _ => true
  | _ => false
  end.

(** * Part 3: properties *)

(** ** Facts about the toolkit model *)

Lemma getRect_make (x y w h : Z) :
  QRect.getRect (QRect.make x y w h) = (x, y, w, h).
Proof.
  unfold QRect.getRect, QRect.make, QRect.left, QRect.top, QRect.width,
    QRect.height; simpl.
  repeat f_equal; lia.
Qed.

Lemma right_make (x y w h : Z) : QRect.right (QRect.make x y w h) = x + w - 1.
Proof. reflexivity. Qed.

Lemma bottom_make (x y w h : Z) : QRect.bottom (QRect.make x y w h) = y + h - 1.
Proof. reflexivity. Qed.

Lemma py_in_In (a : Z) (l : list Z) : py_in a l = true <-> In a l.
Proof.
  unfold py_in. rewrite existsb_exists. split.
  - intros [x [Hx Heq]]. apply Z.eqb_eq in Heq. now subst.
  - intros H. exists a. split; [assumption | apply Z.eqb_refl].
Qed.

(** ** The resize handler, branch by branch *)

Ltac resize_branch Ha :=
  unfold resizeEvent, top_rect; rewrite ?Ha; simpl;
  repeat match goal with
         | H : QWidget.layoutDirection _ = _ |- _ => rewrite H; simpl
         end.

Section Branches.

Variable self : StackedWidget.t.
Variable event : option QEvent.

Lemma resize_AlignRight :
  alignment self = Qt.AlignRight ->
  top_rect (resizeEvent self event) = right_rect self.
Proof.
  intros Ha. resize_branch Ha.
  destruct event; simpl; apply getRect_make.
Qed.

Lemma resize_AlignLeft_rtl :
  alignment self = Qt.AlignLeft ->
  QWidget.layoutDirection (bottom_widget self) = Qt.RightToLeft ->
  top_rect (resizeEvent self event) = right_rect self.
Proof.
  intros Ha Hd. resize_branch Ha.
  destruct event; simpl; apply getRect_make.
Qed.

Lemma resize_AlignLeft :
  alignment self = Qt.AlignLeft ->
  QWidget.layoutDirection (bottom_widget self) <> Qt.RightToLeft ->
  top_rect (resizeEvent self event) = left_rect self.
Proof.
  intros Ha Hd. resize_branch Ha.
  destruct (QWidget.layoutDirection (bottom_widget self)); try congruence;
    destruct event; simpl; apply getRect_make.
Qed.

Lemma resize_AlignTop :
  alignment self = Qt.AlignTop ->
  top_rect (resizeEvent self event) = top_edge_rect self.
Proof.
  intros Ha. resize_branch Ha.
  destruct event; simpl; apply getRect_make.
Qed.

Lemma resize_AlignBottom :
  alignment self = Qt.AlignBottom ->
  top_rect (resizeEvent self event) = bottom_edge_rect self.
Proof.
  intros Ha. resize_branch Ha.
  destruct event; simpl; apply getRect_make.
Qed.

Lemma resize_AlignCenter :
  alignment self = Qt.AlignCenter ->
  top_rect (resizeEvent self event) = centre_rect true true self.
Proof.
  intros Ha. resize_branch Ha.
  destruct event; simpl; apply getRect_make.
Qed.

Lemma resize_AlignHCenter :
  alignment self = Qt.AlignHCenter ->
  top_rect (resizeEvent self event) = centre_rect true false self.
Proof.
  intros Ha. resize_branch Ha.
  destruct event; simpl; apply getRect_make.
Qed.

Lemma resize_AlignVCenter :
  alignment self = Qt.AlignVCenter ->
  top_rect (resizeEvent self event) = centre_rect false true self.
Proof.
  intros Ha. resize_branch Ha.
  destruct event; simpl; apply getRect_make.
Qed.

End Branches.

(** With Left the top widget starts [margin] pixels after the left edge of
    the bottom widget; with Right it ends [margin + 1] pixels before the
    right edge, [right()] being the last column of the rectangle and not the
    one after it.  Top and Bottom differ in the same way. *)
Lemma side_gaps (self : StackedWidget.t) (event : option QEvent) :
  let G := QWidget.geometry (bottom_widget self) in
  let placed := QWidget.geometry (top_widget (resizeEvent self event)) in
  (alignment self = Qt.AlignLeft ->
   QWidget.layoutDirection (bottom_widget self) = Qt.LeftToRight ->
   QRect.left placed - QRect.left G = margin self)
  /\ (alignment self = Qt.AlignRight ->
      QRect.right G - QRect.right placed = margin self + 1)
  /\ (alignment self = Qt.AlignTop ->
      QRect.top placed - QRect.top G = margin self)
  /\ (alignment self = Qt.AlignBottom ->
      QRect.bottom G - QRect.bottom placed = margin self + 1).
Proof.
  intros G placed. unfold placed, G.
  repeat split; intros Ha; try intros Hd;
    unfold resizeEvent; rewrite Ha; simpl; rewrite ?Hd; simpl;
    destruct event; simpl;
    unfold QRect.right, QRect.bottom, QRect.left, QRect.top; simpl; lia.
Qed.

(** ** The constructor and the overlay of the table *)

Lemma init_frame (bottom top : QWidget.t) (m a : Z) :
  margin (__init__ bottom top m a) = m
  /\ alignment (__init__ bottom top m a) = a
  /\ QWidget.sizeHint (top_widget (__init__ bottom top m a)) = QWidget.sizeHint top
  /\ QWidget.sizeHint (bottom_widget (__init__ bottom top m a)) = QWidget.sizeHint bottom
  /\ QWidget.layoutDirection (bottom_widget (__init__ bottom top m a))
     = QWidget.layoutDirection bottom.
Proof.
  unfold __init__.
  repeat match goal with
         | |- context [if py_in ?x ?l then _ else _] => destruct (py_in x l)
         end;
    repeat split; reflexivity.
Qed.

Lemma table_overlay_inputs (bottom top : QWidget.t) (a : Z) :
  QWidget.sizeHint top = QSize.make 40 20 ->
  let s := table_overlay bottom top a in
  margin s = 10 /\ alignment s = a
  /\ QWidget.geometry (bottom_widget s) = QRect.make 0 0 200 100
  /\ hint_width Top s = 40 /\ hint_height Top s = 20
  /\ QWidget.layoutDirection (bottom_widget s) = QWidget.layoutDirection bottom.
Proof.
  intros Hh s.
  destruct (init_frame bottom top 10 a) as (Hm & Ha & Ht & _ & Hd).
  unfold s, table_overlay, hint_width, hint_height; simpl.
  rewrite Hm, Ha, Ht, Hh, Hd. repeat split; reflexivity.
Qed.

Ltac table_row L :=
  match goal with
  | Hh : QWidget.sizeHint ?top = QSize.make 40 20 |- context [table_overlay ?bottom ?top ?a] =>
      let Hm := fresh in let Ha := fresh in let Hg := fresh in
      let Hw := fresh in let Hht := fresh in let Hd := fresh in
      destruct (table_overlay_inputs bottom top a Hh) as (Hm & Ha & Hg & Hw & Hht & Hd);
      rewrite L by (try assumption; try congruence);
      cbv beta delta [right_rect left_rect top_edge_rect bottom_edge_rect centre_rect] zeta;
      rewrite Hm, Hg, Hw, Hht; reflexivity
  end.

Ltac split_ifs :=
  repeat match goal with
         | |- context [if ?c then _ else _] =>
             lazymatch c with
             | context [if _ then _ else _] => fail
             | _ => destruct c eqn:?
             end
         end.

Lemma resizeEvent_frame (self : StackedWidget.t) (event : option QEvent) :
  margin (resizeEvent self event) = margin self
  /\ alignment (resizeEvent self event) = alignment self
  /\ bottom_widget (resizeEvent self event) = bottom_widget self
  /\ QWidget.sizeHint (top_widget (resizeEvent self event))
     = QWidget.sizeHint (top_widget self).
Proof.
  unfold resizeEvent. split_ifs; destruct event; repeat split; reflexivity.
Qed.

Lemma resizeEvent_twice (self : StackedWidget.t) (e1 e2 : option QEvent) :
  top_widget (resizeEvent (resizeEvent self e1) e2) = top_widget (resizeEvent self e1).
Proof.
  unfold resizeEvent at 1.
  destruct (resizeEvent_frame self e1) as (Hm & Ha & Hb & Hs).
  unfold hint_width, hint_height, widget. rewrite Hm, Ha, Hb, Hs.
  unfold resizeEvent.
  split_ifs; destruct e1, e2; simpl; try reflexivity.
Qed.

Lemma In_handled_cases (a : Z) :
  In a handled_alignments ->
  a = Qt.AlignRight \/ a = Qt.AlignLeft \/ a = Qt.AlignTop \/ a = Qt.AlignBottom
  \/ a = Qt.AlignCenter \/ a = Qt.AlignHCenter \/ a = Qt.AlignVCenter
  \/ a = Qt.AlignJustify \/ a = Qt.AlignAbsolute \/ a = Qt.AlignBaseline.
Proof.
  unfold handled_alignments. simpl.
  intros H. repeat (destruct H as [H | H]; [subst a; auto 12 |]). contradiction.
Qed.

Lemma unhandled_eqb (a c : Z) :
  ~ In a handled_alignments -> In c handled_alignments -> (a =? c) = false.
Proof.
  intros Hn Hc. apply Z.eqb_neq. intros ->. contradiction.
Qed.

(** Without a handled alignment every test of [resizeEvent] fails, and only
    the superclass call is left. *)
Lemma resizeEvent_unhandled (self : StackedWidget.t) (event : option QEvent) :
  ~ In (alignment self) handled_alignments ->
  resizeEvent self event = with_super event self.
Proof.
  intros Hn.
  assert (Hne : forall c, In c handled_alignments -> (alignment self =? c) = false)
    by (intros c Hc; now apply unhandled_eqb).
  unfold resizeEvent, py_in, existsb.
  rewrite (Hne Qt.AlignRight), (Hne Qt.AlignLeading), (Hne Qt.AlignTrailing),
    (Hne Qt.AlignLeft), (Hne Qt.AlignTop), (Hne Qt.AlignBottom),
    (Hne Qt.AlignCenter), (Hne Qt.AlignVCenter), (Hne Qt.AlignHCenter),
    (Hne Qt.AlignJustify), (Hne Qt.AlignAbsolute), (Hne Qt.AlignBaseline)
    by (unfold handled_alignments; simpl; auto 20).
  reflexivity.
Qed.

(** With a handled alignment the rectangle set for the top widget is
    computed from what [resizeEvent] reads and from nothing else. *)
Lemma resizeEvent_stateless (self self' : StackedWidget.t) (e e' : option QEvent) :
  resize_inputs self = resize_inputs self' ->
  In (alignment self) handled_alignments ->
  QWidget.geometry (top_widget (resizeEvent self e))
  = QWidget.geometry (top_widget (resizeEvent self' e')).
Proof.
  unfold resize_inputs. intros Hi Ha.
  injection Hi as Halign Hmargin Hgeom Hdir Hhint.
  apply In_handled_cases in Ha.
  unfold resizeEvent, hint_width, hint_height, widget.
  rewrite <- Halign, <- Hmargin, <- Hgeom, <- Hdir, <- Hhint.
  repeat (destruct Ha as [Ha | Ha]);
    rewrite Ha; simpl;
    destruct (QWidget.layoutDirection (bottom_widget self));
    destruct e, e'; reflexivity.
Qed.

(** The calls one resize adds: at most one [setGeometry] on the top
    widget, then the superclass handler when the event is a real one. *)
Lemma resizeEvent_calls (self : StackedWidget.t) (event : option QEvent) :
  exists placed,
    calls (resizeEvent self event)
    = calls self ++ placed ++ match event with
                              | Some e => [super_resizeEvent e]
                              | None => []
                              end
    /\ forallb is_top_setGeometry placed = true
    /\ (List.length placed <= 1)%nat.
Proof.
  unfold resizeEvent. split_ifs;
    first [ exists [] ; destruct event; simpl;
            rewrite ?app_nil_r; repeat split; (reflexivity || lia)
          | eexists [_]; destruct event; simpl;
            rewrite <- ?app_assoc; simpl; repeat split; (reflexivity || lia) ].
Qed.

(** ** The binding scan *)

Section Scan.

Variable env : Interp.

Lemma scan_loaded_passes (pre rest : list string) (q : option string) :
  Forall (passed_over env) pre ->
  forall tr,
    scan_loaded env (pre ++ rest) q tr
    = scan_loaded env rest q (tr ++ map QtCore (filter (sys_modules env) pre)).
Proof.
  induction 1 as [| b pre Hb _ IH]; intros tr; simpl.
  - now rewrite app_nil_r.
  - destruct Hb as [Hb | (e & He & Hexc)].
    + rewrite Hb. apply IH.
    + destruct (sys_modules env b) eqn:Hs.
      * unfold try_except, importlib_import_module. rewrite He, Hexc.
        rewrite IH. simpl. now rewrite <- app_assoc.
      * apply IH.
Qed.


Lemma scan_all_passes (pre rest : list string) (q : option string) :
  Forall (not_importable env) pre ->
  forall tr,
    scan_all env (pre ++ rest) q tr = scan_all env rest q (tr ++ map QtCore pre).
Proof.
  induction 1 as [| b pre (msg & Hb) _ IH]; intros tr; simpl.
  - now rewrite app_nil_r.
  - unfold try_except, importlib_import_module. rewrite Hb. simpl.
    rewrite IH. now rewrite <- app_assoc.
Qed.


End Scan.

Lemma supported_truthy (b : string) :
  In b supported_qt_bindings -> truthy (Some b) = true.
Proof.
  unfold supported_qt_bindings. simpl.
  intros H. repeat (destruct H as [H | H]; [subst b; reflexivity |]). contradiction.
Qed.







(** A binding the scan settles on is one of the supported ones. *)
Lemma scan_loaded_result (env : Interp) (l : list string) (q q' : option string)
    (tr tr' : list string) :
  scan_loaded env l q tr = (Ok q', tr') -> q' = q \/ exists b, In b l /\ q' = Some b.
Proof.
  revert tr. induction l as [| b l IH]; intros tr; simpl.
  - unfold ret. intros H. injection H as <- _. now left.
  - assert (IH' : scan_loaded env l q (tr ++ [QtCore b]) = (Ok q', tr') ->
                  q' = q \/ exists b0, (b = b0 \/ In b0 l) /\ q' = Some b0).
    { intros H. destruct (IH _ H) as [-> | (b0 & Hb0 & ->)]; [now left |].
      right. exists b0. auto. }
    destruct (sys_modules env b).
    + unfold try_except, importlib_import_module.
      destruct (import_module env (QtCore b)) as [m | e].
      * unfold ret. intros H. injection H as <- _. right. exists b. auto.
      * destruct (is_Exception e); [exact IH' | discriminate].
    + intros H. destruct (IH _ H) as [-> | (b0 & Hb0 & ->)]; [now left |].
      right. exists b0. auto.
Qed.

Lemma scan_all_result (env : Interp) (l : list string) (q q' : option string)
    (tr tr' : list string) :
  scan_all env l q tr = (Ok q', tr') -> q' = q \/ exists b, In b l /\ q' = Some b.
Proof.
  revert tr. induction l as [| b l IH]; intros tr; simpl.
  - unfold ret. intros H. injection H as <- _. now left.
  - unfold try_except, importlib_import_module.
    destruct (import_module env (QtCore b)) as [m | e].
    + unfold ret. intros H. injection H as <- _. right. exists b. auto.
    + destruct (is_ImportError e); [| discriminate].
      intros H. destruct (IH _ H) as [-> | (b0 & Hb0 & ->)]; [now left |].
      right. exists b0. auto.
Qed.

Lemma QtBindings_scan_result (env : Interp) (q : option string) (tr tr' : list string) :
  QtBindings_scan env tr = (Ok q, tr') ->
  exists b, In b supported_qt_bindings /\ q = Some b /\ truthy q = true.
Proof.
  unfold QtBindings_scan, bind.
  destruct (scan_loaded env supported_qt_bindings None tr) as [[q1 | e1] tr1] eqn:H1;
    [| discriminate].
  apply scan_loaded_result in H1.
  destruct (negb (truthy q1)) eqn:Ht1.
  - destruct (scan_all env supported_qt_bindings q1 tr1) as [[q2 | e2] tr2] eqn:H2;
      [| discriminate].
    apply scan_all_result in H2.
    destruct (negb (truthy q2)) eqn:Ht2; [discriminate |].
    unfold ret. intros H. injection H as <- _.
    apply negb_false_iff in Ht2.
    destruct H2 as [-> | (b & Hb & ->)].
    + apply negb_true_iff in Ht1. congruence.
    + exists b. auto.
  - unfold ret at 1. cbv beta iota. rewrite Ht1.
    unfold ret. intros H. injection H as <- _.
    apply negb_false_iff in Ht1.
    destruct H1 as [-> | (b & Hb & ->)]; [discriminate Ht1 |].
    exists b. auto.
Qed.

(** The second loop catches [ImportError] only: when no binding is loaded
    and the import of the first one raises another exception, that exception
    ends the scan. *)
Lemma QtBindings_scan_propagates (env : Interp) (e : exn) (tr : list string) :
  Forall (fun b => sys_modules env b = false) supported_qt_bindings ->
  import_module env (QtCore "PySide6") = Raise e ->
  is_ImportError e = false ->
  QtBindings_scan env tr = (Raise e, tr ++ [QtCore "PySide6"]).
Proof.
  intros Hnone He Hk.
  assert (Hpassed : Forall (passed_over env) supported_qt_bindings)
    by (eapply Forall_impl; [| exact Hnone]; intros b Hb; now left).
  assert (Hfilter : filter (sys_modules env) supported_qt_bindings = []).
  { clear - Hnone. induction Hnone as [| b l Hb _ IH]; simpl; [reflexivity |].
    now rewrite Hb. }
  unfold QtBindings_scan, bind.
  rewrite <- (app_nil_r supported_qt_bindings) at 1.
  rewrite (scan_loaded_passes env supported_qt_bindings [] None Hpassed).
  rewrite Hfilter. cbn [scan_loaded ret truthy negb map].
  unfold supported_qt_bindings. cbn [scan_all].
  unfold try_except, importlib_import_module.
  rewrite He, Hk. now rewrite app_nil_r.
Qed.



(** ** The properties of the specification *)

(** C1, on the code: the rectangles [resizeEvent] sets for the table's
    input (margin 10, bottom geometry [(0, 0, 200, 100)], preferred size of
    the top widget [(40, 20)], left-to-right direction).  Left, Top and
    Center get the table's rectangles; Right gets [x = 149] and Bottom
    [y = 69], one less than the table's 150 and 70, because [right()] and
    [bottom()] of the geometry are 199 and 99. *)
Theorem resize_table_on_code (bottom top : QWidget.t) (event : option QEvent) :
  QWidget.sizeHint top = QSize.make 40 20 ->
  QWidget.layoutDirection bottom = Qt.LeftToRight ->
  top_rect (resizeEvent (table_overlay bottom top Qt.AlignRight) event) = (149, 40, 40, 20)
  /\ top_rect (resizeEvent (table_overlay bottom top Qt.AlignLeft) event) = (10, 40, 40, 20)
  /\ top_rect (resizeEvent (table_overlay bottom top Qt.AlignTop) event) = (80, 10, 40, 20)
  /\ top_rect (resizeEvent (table_overlay bottom top Qt.AlignBottom) event) = (80, 69, 40, 20)
  /\ top_rect (resizeEvent (table_overlay bottom top Qt.AlignCenter) event) = (90, 50, 40, 20).
Proof.
  intros Hh Hdir. repeat split.
  - table_row resize_AlignRight.
  - table_row resize_AlignLeft.
  - table_row resize_AlignTop.
  - table_row resize_AlignBottom.
  - table_row resize_AlignCenter.
Qed.

Lemma resize_table_on_code_witness :
  top_rect (resizeEvent (table_overlay (button Qt.LeftToRight) checkbox Qt.AlignRight)
              (Some a_resize)) = (149, 40, 40, 20)
  /\ top_rect (resizeEvent (table_overlay (button Qt.LeftToRight) checkbox Qt.AlignBottom)
                 (Some a_resize)) = (80, 69, 40, 20).
Proof.
  destruct (resize_table_on_code (button Qt.LeftToRight) checkbox (Some a_resize)
              eq_refl eq_refl) as (HR & _ & _ & HB & _).
  split; [exact HR | exact HB].
Defined.

(** C2 as worded fails: with HCenter, margin 10, bottom geometry
    [(0, 0, 200, 100)] and preferred size [(40, 20)] the code sets
    [(90, 40, 40, 20)], the wording gives [(80, 50, 40, 20)]. *)
Lemma centre_row_as_worded_fails :
  ~ (forall (self : StackedWidget.t) (event : option QEvent),
       In (alignment self) [Qt.AlignCenter; Qt.AlignHCenter; Qt.AlignVCenter] ->
       top_rect (resizeEvent self event) = centre_rect_as_worded self).
Proof.
  intros H.
  specialize (H (table_overlay (button Qt.LeftToRight) checkbox Qt.AlignHCenter) None).
  vm_compute in H.
  specialize (H (or_intror (or_introl eq_refl))). discriminate H.
Qed.

(** C2, amended: for Center, HCenter and VCenter the top widget gets
    [x = G.left + (G.width - topW) / 2], plus the margin unless the alignment
    is VCenter, [y = G.top + (G.height - topH) / 2], plus the margin unless
    the alignment is HCenter, width [topW] and height [topH]. *)
Theorem resize_centre_alignments (self : StackedWidget.t) (event : option QEvent) :
  In (alignment self) [Qt.AlignCenter; Qt.AlignHCenter; Qt.AlignVCenter] ->
  let G := QWidget.geometry (bottom_widget self) in
  let topW := QSize.width (QWidget.sizeHint (top_widget self)) in
  let topH := QSize.height (QWidget.sizeHint (top_widget self)) in
  top_rect (resizeEvent self event)
  = (QRect.left G + (QRect.width G - topW) / 2
     + (if alignment self =? Qt.AlignVCenter then 0 else margin self),
     QRect.top G + (QRect.height G - topH) / 2
     + (if alignment self =? Qt.AlignHCenter then 0 else margin self),
     topW, topH).
Proof.
  intros Ha G topW topH. simpl in Ha.
  destruct Ha as [Ha | [Ha | [Ha | []]]]; symmetry in Ha.
  - rewrite (resize_AlignCenter self event Ha), Ha. reflexivity.
  - rewrite (resize_AlignHCenter self event Ha), Ha. reflexivity.
  - rewrite (resize_AlignVCenter self event Ha), Ha. reflexivity.
Qed.

Lemma resize_centre_alignments_witness :
  top_rect (resizeEvent (table_overlay (button Qt.LeftToRight) checkbox Qt.AlignHCenter)
              None) = (90, 40, 40, 20).
Proof.
  apply (resize_centre_alignments
           (table_overlay (button Qt.LeftToRight) checkbox Qt.AlignHCenter) None).
  simpl. right; left; reflexivity.
Defined.










(** C6, on the code.  Left to right, Leading gets the rectangle of Left and
    Trailing that of Right.  Right to left, Leading gets the rectangle of
    Right, and so does Trailing: [Qt.AlignTrailing] is the value of
    [Qt.AlignRight], which the first test of [resizeEvent] takes before the
    direction is looked at, so the test for Trailing under right-to-left in
    the Left branch is never reached. *)
Theorem leading_trailing_on_code (self : StackedWidget.t) (event : option QEvent) :
  (QWidget.layoutDirection (bottom_widget self) = Qt.LeftToRight ->
     (alignment self = Qt.AlignLeading ->
        top_rect (resizeEvent self event) = left_rect self)
     /\ (alignment self = Qt.AlignTrailing ->
           top_rect (resizeEvent self event) = right_rect self))
  /\ (QWidget.layoutDirection (bottom_widget self) = Qt.RightToLeft ->
        (alignment self = Qt.AlignLeading ->
           top_rect (resizeEvent self event) = right_rect self)
        /\ (alignment self = Qt.AlignTrailing ->
              top_rect (resizeEvent self event) = right_rect self)).
Proof.
  split; intros Hd; split; intros Ha.
  - apply resize_AlignLeft; [exact Ha | congruence].
  - apply resize_AlignRight; exact Ha.
  - apply resize_AlignLeft_rtl; assumption.
  - apply resize_AlignRight; exact Ha.
Qed.

Lemma leading_trailing_on_code_witness :
  top_rect (resizeEvent (table_overlay (button Qt.RightToLeft) checkbox Qt.AlignTrailing)
              (Some a_resize)) = (149, 40, 40, 20)
  /\ left_rect (table_overlay (button Qt.RightToLeft) checkbox Qt.AlignTrailing)
     = (10, 40, 40, 20).
Proof.
  split; [| reflexivity].
  destruct (leading_trailing_on_code
              (table_overlay (button Qt.RightToLeft) checkbox Qt.AlignTrailing)
              (Some a_resize)) as [_ Hrtl].
  destruct (Hrtl eq_refl) as [_ Ht].
  rewrite (Ht eq_refl). reflexivity.
Defined.

(** C7: a second resize with the same inputs sets the rectangle the first
    one set.  [resizeEvent] changes nothing it reads, so the second call sees
    the inputs of the first; it leaves the top widget as the first call left
    it; and with a handled alignment the rectangle is computed from these
    inputs alone, whatever the rest of the state. *)
Theorem resize_idempotent (self : StackedWidget.t) (e1 e2 : option QEvent) :
  resize_inputs (resizeEvent self e1) = resize_inputs self
  /\ top_widget (resizeEvent (resizeEvent self e1) e2) = top_widget (resizeEvent self e1)
  /\ top_rect (resizeEvent (resizeEvent self e1) e2) = top_rect (resizeEvent self e1)
  /\ forall (other : StackedWidget.t) (e : option QEvent),
       resize_inputs other = resize_inputs self ->
       In (alignment self) handled_alignments ->
       top_rect (resizeEvent other e) = top_rect (resizeEvent self e1).
Proof.
  destruct (resizeEvent_frame self e1) as (Hm & Ha & Hb & Hs).
  repeat split.
  - unfold resize_inputs. now rewrite Hm, Ha, Hb, Hs.
  - apply resizeEvent_twice.
  - unfold top_rect. now rewrite resizeEvent_twice.
  - intros other e Hi Hin. unfold top_rect. f_equal.
    symmetry. now apply resizeEvent_stateless.
Qed.

Lemma resize_idempotent_witness :
  top_rect (resizeEvent
              (do_setGeometry Top 3 4 5 6
                 (table_overlay (button Qt.LeftToRight) checkbox Qt.AlignTop)) None)
  = top_rect (resizeEvent (table_overlay (button Qt.LeftToRight) checkbox Qt.AlignTop)
                (Some a_resize)).
Proof.
  apply (resize_idempotent
           (table_overlay (button Qt.LeftToRight) checkbox Qt.AlignTop) (Some a_resize) None).
  - reflexivity.
  - simpl. do 4 right. left. reflexivity.
Defined.

(** C8: with Right, Left, Leading or Trailing the constructor sets the
    minimum width of the bottom widget to its preferred width plus twice the
    sum of the top widget's preferred width and the margin.  That is its only
    setter call: the minimum height of the bottom widget and the whole top
    widget stay as they were. *)
Theorem init_side_alignment (bottom top : QWidget.t) (m a : Z) :
  In a [Qt.AlignRight; Qt.AlignLeft; Qt.AlignLeading; Qt.AlignTrailing] ->
  let self := __init__ bottom top m a in
  let inflated :=
    QSize.width (QWidget.sizeHint bottom) + 2 * (QSize.width (QWidget.sizeHint top) + m) in
  QWidget.minimumWidth (bottom_widget self) = inflated
  /\ QWidget.minimumHeight (bottom_widget self) = QWidget.minimumHeight bottom
  /\ calls self = [addWidget Bottom; setParent Top; setMinimumWidth Bottom inflated]
  /\ top_widget self = top.
Proof.
  intros Ha self inflated.
  apply py_in_In in Ha.
  unfold self, __init__. rewrite Ha.
  repeat split.
Qed.

Lemma init_side_alignment_witness :
  QWidget.minimumWidth
    (bottom_widget (__init__ (button Qt.LeftToRight) checkbox 10 Qt.AlignTrailing)) = 175
  /\ QWidget.minimumHeight
       (bottom_widget (__init__ (button Qt.LeftToRight) checkbox 10 Qt.AlignTrailing)) = 0.
Proof.
  destruct (init_side_alignment (button Qt.LeftToRight) checkbox 10 Qt.AlignTrailing)
    as (Hw & Hh & _).
  - simpl. do 3 right. left. reflexivity.
  - split; [exact Hw | exact Hh].
Defined.

(** C9: with an alignment outside the handled values no test of
    [resizeEvent] succeeds: both widgets stay as they were, no [setGeometry]
    is issued, and the only call is the superclass handler for a real
    event. *)
Theorem resize_unhandled_alignment (self : StackedWidget.t) (event : option QEvent) :
  ~ In (alignment self) handled_alignments ->
  top_widget (resizeEvent self event) = top_widget self
  /\ bottom_widget (resizeEvent self event) = bottom_widget self
  /\ calls (resizeEvent self event)
     = calls self ++ match event with
                     | Some e => [super_resizeEvent e]
                     | None => []
                     end.
Proof.
  intros Hn. rewrite (resizeEvent_unhandled self event Hn).
  destruct event; simpl; rewrite ?app_nil_r; repeat split.
Qed.

Lemma resize_unhandled_alignment_witness :
  top_widget
    (resizeEvent (table_overlay (button Qt.LeftToRight) checkbox
                    (Z.lor Qt.AlignLeft Qt.AlignTop)) (Some a_resize))
  = checkbox.
Proof.
  apply (resize_unhandled_alignment
           (table_overlay (button Qt.LeftToRight) checkbox (Z.lor Qt.AlignLeft Qt.AlignTop))
           (Some a_resize)).
  simpl. intros H.
  repeat (destruct H as [H | H]; [discriminate H |]). exact H.
Defined.

(** ** Further properties of the code *)

(** *** The constructor, branch by branch *)

(** X1: with Top or Bottom the constructor sets the minimum height of the
    bottom widget to its preferred height plus twice the sum of the top
    widget's preferred height and the margin; it issues no other setter
    call, so the minimum width of the bottom widget and the top widget stay
    as they were. *)
Theorem init_edge_alignment (bottom top : QWidget.t) (m a : Z) :
  In a [Qt.AlignTop; Qt.AlignBottom] ->
  let self := __init__ bottom top m a in
  let inflated :=
    QSize.height (QWidget.sizeHint bottom)
    + 2 * (QSize.height (QWidget.sizeHint top) + m) in
  QWidget.minimumHeight (bottom_widget self) = inflated
  /\ QWidget.minimumWidth (bottom_widget self) = QWidget.minimumWidth bottom
  /\ calls self = [addWidget Bottom; setParent Top; setMinimumHeight Bottom inflated]
  /\ top_widget self = top.
Proof.
  intros Ha self inflated. simpl in Ha.
  destruct Ha as [<- | [<- | []]]; repeat split.
Qed.

Lemma init_edge_alignment_witness :
  QWidget.minimumHeight
    (bottom_widget (__init__ (button Qt.LeftToRight) checkbox 10 Qt.AlignBottom)) = 83.
Proof.
  apply (init_edge_alignment (button Qt.LeftToRight) checkbox 10 Qt.AlignBottom).
  simpl. right; left; reflexivity.
Defined.

(** X2: with Justify, Absolute or Baseline the constructor works per axis.
    On the horizontal axis (Justify, Absolute) the top widget gets the larger
    of the two preferred widths as minimum width, the bottom widget that
    width plus the margin, and the horizontal policy of the top widget
    becomes MinimumExpanding; the vertical axis (Justify, Baseline) is
    handled alike.  The axis an alignment does not stretch keeps its minimum
    sizes and its policy. *)
Theorem init_stretch_alignment (bottom top : QWidget.t) (m a : Z) :
  In a [Qt.AlignJustify; Qt.AlignAbsolute; Qt.AlignBaseline] ->
  let self := __init__ bottom top m a in
  let w := Z.max (QSize.width (QWidget.sizeHint top))
                 (QSize.width (QWidget.sizeHint bottom)) in
  let h := Z.max (QSize.height (QWidget.sizeHint top))
                 (QSize.height (QWidget.sizeHint bottom)) in
  (if (a =? Qt.AlignBaseline) then
     QWidget.minimumWidth (top_widget self) = QWidget.minimumWidth top
     /\ QWidget.minimumWidth (bottom_widget self) = QWidget.minimumWidth bottom
     /\ QSizePolicy.horizontalPolicy (QWidget.sizePolicy (top_widget self))
        = QSizePolicy.horizontalPolicy (QWidget.sizePolicy top)
   else
     QWidget.minimumWidth (top_widget self) = w
     /\ QWidget.minimumWidth (bottom_widget self) = w + m
     /\ QSizePolicy.horizontalPolicy (QWidget.sizePolicy (top_widget self))
        = QSizePolicy.MinimumExpanding)
  /\ (if (a =? Qt.AlignAbsolute) then
        QWidget.minimumHeight (top_widget self) = QWidget.minimumHeight top
        /\ QWidget.minimumHeight (bottom_widget self) = QWidget.minimumHeight bottom
        /\ QSizePolicy.verticalPolicy (QWidget.sizePolicy (top_widget self))
           = QSizePolicy.verticalPolicy (QWidget.sizePolicy top)
      else
        QWidget.minimumHeight (top_widget self) = h
        /\ QWidget.minimumHeight (bottom_widget self) = h + m
        /\ QSizePolicy.verticalPolicy (QWidget.sizePolicy (top_widget self))
           = QSizePolicy.MinimumExpanding).
Proof.
  intros Ha self w h. simpl in Ha.
  destruct Ha as [<- | [<- | [<- | []]]]; repeat split.
Qed.

Lemma init_stretch_alignment_witness :
  QWidget.sizePolicy
    (top_widget (__init__ (button Qt.LeftToRight) checkbox 10 Qt.AlignJustify))
  = QSizePolicy.make QSizePolicy.MinimumExpanding QSizePolicy.MinimumExpanding
  /\ QWidget.minimumWidth
       (bottom_widget (__init__ (button Qt.LeftToRight) checkbox 10 Qt.AlignJustify)) = 85.
Proof.
  destruct (init_stretch_alignment (button Qt.LeftToRight) checkbox 10 Qt.AlignJustify)
    as ((_ & Hw & _) & _).
  - simpl. left; reflexivity.
  - split; [reflexivity | exact Hw].
Defined.

(** X3: with Center, HCenter or VCenter the constructor raises the minimum
    width of the bottom widget to the larger of its preferred width and the
    top widget's preferred width, the margin added to the latter unless the
    alignment is VCenter, and the minimum height likewise, the margin added
    unless the alignment is HCenter.  These are its only two setter calls. *)
Theorem init_centre_alignment (bottom top : QWidget.t) (m a : Z) :
  In a [Qt.AlignCenter; Qt.AlignHCenter; Qt.AlignVCenter] ->
  let self := __init__ bottom top m a in
  let w := Z.max (QSize.width (QWidget.sizeHint bottom))
                 (QSize.width (QWidget.sizeHint top)
                  + (if a =? Qt.AlignVCenter then 0 else m)) in
  let h := Z.max (QSize.height (QWidget.sizeHint bottom))
                 (QSize.height (QWidget.sizeHint top)
                  + (if a =? Qt.AlignHCenter then 0 else m)) in
  QWidget.minimumWidth (bottom_widget self) = w
  /\ QWidget.minimumHeight (bottom_widget self) = h
  /\ calls self = [addWidget Bottom; setParent Top;
                   setMinimumWidth Bottom w; setMinimumHeight Bottom h]
  /\ top_widget self = top.
Proof.
  intros Ha self w h. simpl in Ha.
  destruct Ha as [<- | [<- | [<- | []]]]; repeat split.
Qed.

Lemma init_centre_alignment_witness :
  QWidget.minimumWidth
    (bottom_widget (__init__ (button Qt.LeftToRight) checkbox 50 Qt.AlignHCenter)) = 90
  /\ QWidget.minimumHeight
       (bottom_widget (__init__ (button Qt.LeftToRight) checkbox 50 Qt.AlignHCenter)) = 23.
Proof.
  destruct (init_centre_alignment (button Qt.LeftToRight) checkbox 50 Qt.AlignHCenter)
    as (Hw & Hh & _).
  - simpl. right; left; reflexivity.
  - split; [exact Hw | exact Hh].
Defined.

Lemma init_without_branch (bottom top : QWidget.t) (m a : Z) :
  ~ In a handled_alignments ->
  __init__ bottom top m a
  = StackedWidget.make m a bottom top [addWidget Bottom; setParent Top].
Proof.
  intros Hn.
  assert (Hne : forall c, In c handled_alignments -> (a =? c) = false)
    by (intros c Hc; now apply unhandled_eqb).
  unfold __init__, py_in, existsb.
  rewrite (Hne Qt.AlignRight), (Hne Qt.AlignLeading), (Hne Qt.AlignTrailing),
    (Hne Qt.AlignLeft), (Hne Qt.AlignTop), (Hne Qt.AlignBottom),
    (Hne Qt.AlignCenter), (Hne Qt.AlignVCenter), (Hne Qt.AlignHCenter),
    (Hne Qt.AlignJustify), (Hne Qt.AlignAbsolute), (Hne Qt.AlignBaseline)
    by (unfold handled_alignments; simpl; auto 20).
  reflexivity.
Qed.

(** X4: with an alignment that is none of the twelve constants, a
    combination of flags for one, the constructor issues no setter call at
    all: it only stores its arguments, puts the bottom widget in the layout
    and reparents the top widget, and both widgets stay as they were. *)
Theorem init_unhandled_alignment (bottom top : QWidget.t) (m a : Z) :
  ~ In a handled_alignments ->
  let self := __init__ bottom top m a in
  calls self = [addWidget Bottom; setParent Top]
  /\ bottom_widget self = bottom /\ top_widget self = top
  /\ margin self = m /\ alignment self = a.
Proof.
  intros Hn self. unfold self. rewrite (init_without_branch bottom top m a Hn).
  repeat split.
Qed.

Lemma init_unhandled_alignment_witness :
  calls (__init__ (button Qt.LeftToRight) checkbox 10 (Z.lor Qt.AlignRight Qt.AlignBottom))
  = [addWidget Bottom; setParent Top].
Proof.
  apply (init_unhandled_alignment (button Qt.LeftToRight) checkbox 10
           (Z.lor Qt.AlignRight Qt.AlignBottom)).
  simpl. intros H.
  repeat (destruct H as [H | H]; [discriminate H |]). exact H.
Defined.

(** The constructor is looked at alignment by alignment: the ten values of
    the twelve constants, and every other value at once. *)
Ltac by_alignment bottom top m a :=
  destruct (in_dec Z.eq_dec a handled_alignments) as [Hin | Hn];
  [ apply In_handled_cases in Hin;
    repeat (destruct Hin as [Hin | Hin]); subst a
  | rewrite (init_without_branch bottom top m a Hn) ].

(** X5: whatever the alignment, the constructor places nothing.  It
    stores margin and alignment as given; its first two calls put the bottom
    widget in the layout and reparent the top widget; every call after them,
    at most six, sets a minimum width, a minimum height or a size policy, so
    no [setGeometry] is issued on either widget. *)
Theorem init_never_places (bottom top : QWidget.t) (m a : Z) :
  let self := __init__ bottom top m a in
  margin self = m /\ alignment self = a
  /\ exists setters,
       calls self = [addWidget Bottom; setParent Top] ++ setters
       /\ forallb is_size_setter setters = true
       /\ (List.length setters <= 6)%nat
       /\ existsb is_setGeometry (calls self) = false.
Proof.
  by_alignment bottom top m a; cbv zeta;
    (split; [vm_compute; reflexivity |]);
    (split; [vm_compute; reflexivity |]);
    match goal with |- context [calls ?s] => exists (skipn 2 (calls s)) end;
    (split; [vm_compute; reflexivity |]);
    (split; [vm_compute; reflexivity |]);
    (split; [vm_compute; lia | vm_compute; reflexivity]).
Qed.

(** X6: with a margin and preferred sizes of the top widget that are not
    negative, no call of the constructor sets a minimum width or height of
    the bottom widget below its preferred width or height. *)
Theorem init_keeps_preferred (bottom top : QWidget.t) (m a : Z) :
  0 <= m ->
  0 <= QSize.width (QWidget.sizeHint top) ->
  0 <= QSize.height (QWidget.sizeHint top) ->
  Forall (keeps_preferred (QSize.width (QWidget.sizeHint bottom))
                          (QSize.height (QWidget.sizeHint bottom)))
         (calls (__init__ bottom top m a)).
Proof.
  intros Hm Hw Hh.
  by_alignment bottom top m a;
    cbv beta iota zeta delta
      [__init__ StackedWidget.py_in existsb Z.eqb Pos.eqb orb calls log
       do_setMinimumWidth do_setMinimumHeight do_setSizePolicy on on_top on_bottom
       hint_width hint_height widget bottom_widget top_widget app
       Qt.AlignRight Qt.AlignLeft Qt.AlignLeading Qt.AlignTrailing Qt.AlignTop
       Qt.AlignBottom Qt.AlignCenter Qt.AlignHCenter Qt.AlignVCenter Qt.AlignJustify
       Qt.AlignAbsolute Qt.AlignBaseline Z.lor Pos.lor];
    repeat (apply Forall_cons || apply Forall_nil);
    cbn -[Z.mul Z.add Z.max Z.le]; try exact I; lia.
Qed.

Lemma init_keeps_preferred_witness :
  Forall (keeps_preferred 75 23)
         (calls (__init__ (button Qt.LeftToRight) checkbox 10 Qt.AlignJustify)).
Proof.
  apply (init_keeps_preferred (button Qt.LeftToRight) checkbox 10 Qt.AlignJustify);
    simpl; lia.
Defined.

(** *** The resize handler: the rectangles and where they lie *)

Lemma getRect_inv (r : QRect.t) (x y w h : Z) :
  QRect.getRect r = (x, y, w, h) -> r = QRect.make x y w h.
Proof.
  destruct r as [a b c d].
  unfold QRect.getRect, QRect.make, QRect.left, QRect.top, QRect.width, QRect.height.
  cbn [QRect.x1 QRect.y1 QRect.x2 QRect.y2].
  intros H. injection H as <- <- <- <-. f_equal; lia.
Qed.

(** [lia] with the floor divisions of the handler turned into their
    defining inequalities. *)
Ltac div_lia := Z.to_euclidean_division_equations; lia.

Ltac placed_by L :=
  unfold placed;
  match goal with
  | |- context [QWidget.geometry (top_widget (resizeEvent ?s ?e))] =>
      rewrite (getRect_inv _ _ _ _ _ (L s e ltac:(assumption)))
  end.

Ltac open_rect :=
  cbv beta iota zeta delta
    [right_rect left_rect top_edge_rect bottom_edge_rect centre_rect
     justify_rect absolute_rect baseline_rect
     inside_across inside_down hint_width hint_height widget
     QRect.make QRect.left QRect.right QRect.top QRect.bottom QRect.width
     QRect.height translated QRect.getRect];
  cbn [QRect.x1 QRect.x2 QRect.y1 QRect.y2].

Section Stretch.

Variable self : StackedWidget.t.
Variable event : option QEvent.

Lemma resize_AlignJustify :
  alignment self = Qt.AlignJustify ->
  top_rect (resizeEvent self event) = justify_rect self.
Proof.
  intros Ha. resize_branch Ha.
  destruct event; simpl; apply getRect_make.
Qed.

Lemma resize_AlignAbsolute :
  alignment self = Qt.AlignAbsolute ->
  top_rect (resizeEvent self event) = absolute_rect self.
Proof.
  intros Ha. resize_branch Ha.
  destruct event; simpl; apply getRect_make.
Qed.

Lemma resize_AlignBaseline :
  alignment self = Qt.AlignBaseline ->
  top_rect (resizeEvent self event) = baseline_rect self.
Proof.
  intros Ha. resize_branch Ha.
  destruct event; simpl; apply getRect_make.
Qed.

End Stretch.

(** X7: the three stretching alignments.  Justify gives the top widget the
    geometry of the bottom widget made smaller by the margin in width and in
    height and moved by half the margin (floor) on both axes; Absolute does
    this across only and centres the preferred height; Baseline does it down
    only and centres the preferred width. *)
Theorem resize_stretch_alignments (self : StackedWidget.t) (event : option QEvent) :
  let G := QWidget.geometry (bottom_widget self) in
  let topW := QSize.width (QWidget.sizeHint (top_widget self)) in
  let topH := QSize.height (QWidget.sizeHint (top_widget self)) in
  let m := margin self in
  (alignment self = Qt.AlignJustify ->
   top_rect (resizeEvent self event)
   = (QRect.left G + m / 2, QRect.top G + m / 2, QRect.width G - m, QRect.height G - m))
  /\ (alignment self = Qt.AlignAbsolute ->
      top_rect (resizeEvent self event)
      = (QRect.left G + m / 2, QRect.top G + (QRect.height G - topH) / 2,
         QRect.width G - m, topH))
  /\ (alignment self = Qt.AlignBaseline ->
      top_rect (resizeEvent self event)
      = (QRect.left G + (QRect.width G - topW) / 2, QRect.top G + m / 2,
         topW, QRect.height G - m)).
Proof.
  intros G topW topH m. repeat split; intros Ha.
  - now rewrite resize_AlignJustify.
  - now rewrite resize_AlignAbsolute.
  - now rewrite resize_AlignBaseline.
Qed.

Lemma resize_stretch_alignments_witness :
  top_rect (resizeEvent (table_overlay (button Qt.LeftToRight) checkbox Qt.AlignJustify)
              None) = (5, 5, 190, 90).
Proof.
  apply (resize_stretch_alignments
           (table_overlay (button Qt.LeftToRight) checkbox Qt.AlignJustify) None).
  reflexivity.
Defined.

(** X8: with Right, Left, Top, Bottom, Center, HCenter or VCenter the top
    widget gets exactly its preferred size, whatever the geometry of the
    bottom widget, the margin and the direction. *)
Theorem resize_keeps_preferred_size (self : StackedWidget.t) (event : option QEvent) :
  In (alignment self)
     [Qt.AlignRight; Qt.AlignLeft; Qt.AlignTop; Qt.AlignBottom;
      Qt.AlignCenter; Qt.AlignHCenter; Qt.AlignVCenter] ->
  QRect.width (placed self event) = QSize.width (QWidget.sizeHint (top_widget self))
  /\ QRect.height (placed self event) = QSize.height (QWidget.sizeHint (top_widget self)).
Proof.
  intros Ha. simpl in Ha.
  destruct Ha as [Ha | [Ha | [Ha | [Ha | [Ha | [Ha | [Ha | []]]]]]]]; symmetry in Ha.
  - placed_by resize_AlignRight. open_rect. lia.
  - destruct (QWidget.layoutDirection (bottom_widget self)) eqn:Hd.
    + unfold placed.
      rewrite (getRect_inv _ _ _ _ _ (resize_AlignLeft self event Ha ltac:(congruence))).
      open_rect. lia.
    + unfold placed.
      rewrite (getRect_inv _ _ _ _ _ (resize_AlignLeft_rtl self event Ha Hd)).
      open_rect. lia.
    + unfold placed.
      rewrite (getRect_inv _ _ _ _ _ (resize_AlignLeft self event Ha ltac:(congruence))).
      open_rect. lia.
  - placed_by resize_AlignTop. open_rect. lia.
  - placed_by resize_AlignBottom. open_rect. lia.
  - placed_by resize_AlignCenter. open_rect. lia.
  - placed_by resize_AlignHCenter. open_rect. lia.
  - placed_by resize_AlignVCenter. open_rect. lia.
Qed.

Lemma resize_keeps_preferred_size_witness :
  QRect.width (placed (table_overlay (button Qt.RightToLeft) checkbox Qt.AlignLeft) None)
  = 40.
Proof.
  apply (resize_keeps_preferred_size
           (table_overlay (button Qt.RightToLeft) checkbox Qt.AlignLeft) None).
  simpl. right; left; reflexivity.
Defined.

(** X9: [Qt.AlignLeft] follows the direction of the bottom widget, being
    the value of [Qt.AlignLeading]: right to left it gets the rectangle at
    the right edge, otherwise the one at the left edge.  [Qt.AlignRight] gets
    the rectangle at the right edge in every direction. *)
Theorem resize_left_follows_direction (self : StackedWidget.t) (event : option QEvent) :
  (alignment self = Qt.AlignLeft ->
   top_rect (resizeEvent self event)
   = match QWidget.layoutDirection (bottom_widget self) with
     | Qt.RightToLeft => right_rect self
     | _ => left_rect self
     end)
  /\ (alignment self = Qt.AlignRight ->
      top_rect (resizeEvent self event) = right_rect self).
Proof.
  split; intros Ha.
  - destruct (QWidget.layoutDirection (bottom_widget self)) eqn:Hd.
    + apply resize_AlignLeft; [exact Ha | congruence].
    + now apply resize_AlignLeft_rtl.
    + apply resize_AlignLeft; [exact Ha | congruence].
  - now apply resize_AlignRight.
Qed.

Lemma resize_left_follows_direction_witness :
  top_rect (resizeEvent (table_overlay (button Qt.RightToLeft) checkbox Qt.AlignLeft) None)
  = (149, 40, 40, 20).
Proof.
  apply (proj1 (resize_left_follows_direction
                  (table_overlay (button Qt.RightToLeft) checkbox Qt.AlignLeft) None)).
  reflexivity.
Defined.

Ltac open_placed Ha :=
  unfold placed, resizeEvent; rewrite ?Ha;
  cbn -[Z.div Z.add Z.sub Z.mul Z.le Z.lt];
  repeat match goal with
         | H : QWidget.layoutDirection _ = _ |- _ =>
             rewrite H; cbn -[Z.div Z.add Z.sub Z.mul Z.le Z.lt]
         end;
  match goal with
  | |- context [match ?e with Some _ => _ | None => _ end] =>
      destruct e; cbn -[Z.div Z.add Z.sub Z.mul Z.le Z.lt]
  | _ => idtac
  end;
  open_rect.

(** X10: when the bottom widget is large enough, the top widget lies inside
    it.  For Right and Left it is enough that the margin is not negative,
    that preferred width, margin and one more pixel fit in the width and the
    preferred height in the height; for Top and Bottom the same with the
    axes swapped; for Center, HCenter and VCenter that the preferred size
    and twice the margin fit on both axes. *)
Theorem resize_inside (self : StackedWidget.t) (event : option QEvent) :
  let G := QWidget.geometry (bottom_widget self) in
  let topW := QSize.width (QWidget.sizeHint (top_widget self)) in
  let topH := QSize.height (QWidget.sizeHint (top_widget self)) in
  let m := margin self in
  0 <= m ->
  (In (alignment self) [Qt.AlignRight; Qt.AlignLeft] ->
   topW + m + 1 <= QRect.width G -> topH <= QRect.height G ->
   inside_across (placed self event) G /\ inside_down (placed self event) G)
  /\ (In (alignment self) [Qt.AlignTop; Qt.AlignBottom] ->
      topW <= QRect.width G -> topH + m + 1 <= QRect.height G ->
      inside_across (placed self event) G /\ inside_down (placed self event) G)
  /\ (In (alignment self) [Qt.AlignCenter; Qt.AlignHCenter; Qt.AlignVCenter] ->
      topW + 2 * m <= QRect.width G -> topH + 2 * m <= QRect.height G ->
      inside_across (placed self event) G /\ inside_down (placed self event) G).
Proof.
  intros G topW topH m Hm. unfold G, topW, topH, m in *. clear G topW topH m.
  refine (conj _ (conj _ _)); intros Ha Hw Hh; simpl in Ha;
    repeat (destruct Ha as [Ha | Ha]; [symmetry in Ha |]); try contradiction;
    try (destruct (QWidget.layoutDirection (bottom_widget self)) eqn:Hd);
    revert Hm Hw Hh; open_placed Ha; div_lia.
Qed.

Lemma resize_inside_witness :
  inside_across
    (placed (table_overlay (button Qt.LeftToRight) checkbox Qt.AlignRight) None)
    (QRect.make 0 0 200 100)
  /\ inside_down
       (placed (table_overlay (button Qt.LeftToRight) checkbox Qt.AlignRight) None)
       (QRect.make 0 0 200 100).
Proof.
  refine (proj1 (resize_inside
                   (table_overlay (button Qt.LeftToRight) checkbox Qt.AlignRight) None _)
            _ _ _).
  - simpl. lia.
  - simpl. left; reflexivity.
  - vm_compute. discriminate.
  - vm_compute. discriminate.
Defined.

(** X11: Right and Left centre the top widget down the bottom widget, Top
    and Bottom across it: the free space before and after it adds up to the
    difference of the two sizes, and the space after is the space before or
    one pixel more. *)
Theorem resize_centres_other_axis (self : StackedWidget.t) (event : option QEvent) :
  let G := QWidget.geometry (bottom_widget self) in
  let r := placed self event in
  (In (alignment self) [Qt.AlignRight; Qt.AlignLeft] ->
   let above := QRect.top r - QRect.top G in
   let below := QRect.bottom G - QRect.bottom r in
   above + below = QRect.height G - QRect.height r
   /\ (below = above \/ below = above + 1))
  /\ (In (alignment self) [Qt.AlignTop; Qt.AlignBottom] ->
      let before := QRect.left r - QRect.left G in
      let after := QRect.right G - QRect.right r in
      before + after = QRect.width G - QRect.width r
      /\ (after = before \/ after = before + 1)).
Proof.
  intros G r. unfold G, r. clear G r.
  split; intros Ha; simpl in Ha;
    repeat (destruct Ha as [Ha | Ha]; [symmetry in Ha |]); try contradiction;
    try (destruct (QWidget.layoutDirection (bottom_widget self)) eqn:Hd);
    open_placed Ha; div_lia.
Qed.

Lemma resize_centres_other_axis_witness :
  QRect.top (placed (table_overlay (button Qt.LeftToRight) checkbox Qt.AlignRight) None) - 0
  + (99 - QRect.bottom
            (placed (table_overlay (button Qt.LeftToRight) checkbox Qt.AlignRight) None))
  = 100 - QRect.height
            (placed (table_overlay (button Qt.LeftToRight) checkbox Qt.AlignRight) None).
Proof.
  apply (proj1 (resize_centres_other_axis
                  (table_overlay (button Qt.LeftToRight) checkbox Qt.AlignRight) None)).
  simpl. left; reflexivity.
Defined.

(** X12: Justify leaves half the margin (floor) before the top widget and
    the rest of the margin after it, across and down; with an even margin
    the free space is the same on the four sides. *)
Theorem resize_justify_inset (self : StackedWidget.t) (event : option QEvent) :
  alignment self = Qt.AlignJustify ->
  let G := QWidget.geometry (bottom_widget self) in
  let r := placed self event in
  let m := margin self in
  QRect.left r - QRect.left G = m / 2
  /\ QRect.right G - QRect.right r = m - m / 2
  /\ QRect.top r - QRect.top G = m / 2
  /\ QRect.bottom G - QRect.bottom r = m - m / 2
  /\ (forall k, m = 2 * k ->
        QRect.right G - QRect.right r = k /\ QRect.bottom G - QRect.bottom r = k).
Proof.
  intros Ha G r m. unfold G, r, m. clear G r m.
  refine (conj _ (conj _ (conj _ (conj _ _)))); try (intros k Hk; revert Hk);
    open_placed Ha; div_lia.
Qed.

Lemma resize_justify_inset_witness :
  QRect.right (QRect.make 0 0 200 100)
  - QRect.right (placed (table_overlay (button Qt.LeftToRight) checkbox Qt.AlignJustify)
                   None) = 5.
Proof.
  destruct (resize_justify_inset
              (table_overlay (button Qt.LeftToRight) checkbox Qt.AlignJustify) None
              eq_refl) as (_ & _ & _ & _ & Heven).
  apply (Heven 5). reflexivity.
Defined.

(** X13: a resize only places the top widget.  It leaves margin, alignment
    and the bottom widget as they are, as well as preferred size, minimum
    sizes, size policy and direction of the top widget; it issues at most
    one call before the superclass handler, and that call is the
    [setGeometry] on the top widget whose rectangle the widget then has. *)
Theorem resize_only_places_top (self : StackedWidget.t) (event : option QEvent) :
  let after := resizeEvent self event in
  margin after = margin self
  /\ alignment after = alignment self
  /\ bottom_widget after = bottom_widget self
  /\ QWidget.sizeHint (top_widget after) = QWidget.sizeHint (top_widget self)
  /\ QWidget.minimumWidth (top_widget after) = QWidget.minimumWidth (top_widget self)
  /\ QWidget.minimumHeight (top_widget after) = QWidget.minimumHeight (top_widget self)
  /\ QWidget.sizePolicy (top_widget after) = QWidget.sizePolicy (top_widget self)
  /\ QWidget.layoutDirection (top_widget after)
     = QWidget.layoutDirection (top_widget self)
  /\ exists issued,
       calls after
       = calls self ++ issued ++ match event with
                                 | Some e => [super_resizeEvent e]
                                 | None => []
                                 end
       /\ (issued = [] /\ top_widget after = top_widget self
           \/ exists x y w h,
                issued = [setGeometry Top x y w h]
                /\ QWidget.geometry (top_widget after) = QRect.make x y w h).
Proof.
  unfold resizeEvent. split_ifs; destruct event;
    cbn [margin alignment bottom_widget top_widget calls log do_setGeometry on on_top
         QWidget.setGeometry QWidget.sizeHint QWidget.minimumWidth QWidget.minimumHeight
         QWidget.sizePolicy QWidget.layoutDirection QWidget.geometry];
    do 8 (split; [reflexivity |]);
    first
      [ exists []; rewrite ?app_nil_r; split; [reflexivity | left; split; reflexivity]
      | eexists [_]; rewrite <- ?app_assoc; rewrite ?app_nil_r;
        split; [reflexivity | right; do 4 eexists; split; reflexivity] ].
Qed.

(** *** The constructor and the resize handler together *)

Lemma built_inputs (bottom top : QWidget.t) (m a : Z) (G : QRect.t) :
  let s := built bottom top m a G in
  margin s = m /\ alignment s = a
  /\ QWidget.geometry (bottom_widget s) = G
  /\ hint_width Top s = QSize.width (QWidget.sizeHint top)
  /\ hint_height Top s = QSize.height (QWidget.sizeHint top).
Proof.
  intros s.
  destruct (init_frame bottom top m a) as (Hm & Ha & Ht & _ & _).
  unfold s, built, hint_width, hint_height; simpl.
  rewrite Hm, Ha, Ht. repeat split; reflexivity.
Qed.

Lemma placed_side (self : StackedWidget.t) (event : option QEvent) :
  In (alignment self) [Qt.AlignRight; Qt.AlignLeft] ->
  placed self event = QRect.make (fst (fst (fst (right_rect self))))
                        (snd (fst (fst (right_rect self))))
                        (hint_width Top self) (hint_height Top self)
  \/ placed self event = QRect.make (fst (fst (fst (left_rect self))))
                           (snd (fst (fst (left_rect self))))
                           (hint_width Top self) (hint_height Top self).
Proof.
  intros Ha. simpl in Ha. destruct Ha as [Ha | [Ha | []]]; symmetry in Ha.
  - left. placed_by resize_AlignRight. reflexivity.
  - destruct (QWidget.layoutDirection (bottom_widget self)) eqn:Hd.
    + right. unfold placed.
      now rewrite (getRect_inv _ _ _ _ _ (resize_AlignLeft self event Ha ltac:(congruence))).
    + left. unfold placed.
      now rewrite (getRect_inv _ _ _ _ _ (resize_AlignLeft_rtl self event Ha Hd)).
    + right. unfold placed.
      now rewrite (getRect_inv _ _ _ _ _ (resize_AlignLeft self event Ha ltac:(congruence))).
Qed.

Lemma placed_edge (self : StackedWidget.t) (event : option QEvent) :
  In (alignment self) [Qt.AlignTop; Qt.AlignBottom] ->
  placed self event = QRect.make (fst (fst (fst (top_edge_rect self))))
                        (snd (fst (fst (top_edge_rect self))))
                        (hint_width Top self) (hint_height Top self)
  \/ placed self event = QRect.make (fst (fst (fst (bottom_edge_rect self))))
                           (snd (fst (fst (bottom_edge_rect self))))
                           (hint_width Top self) (hint_height Top self).
Proof.
  intros Ha. simpl in Ha. destruct Ha as [Ha | [Ha | []]]; symmetry in Ha.
  - left. placed_by resize_AlignTop. reflexivity.
  - right. placed_by resize_AlignBottom. reflexivity.
Qed.

Lemma init_side_minimum (bottom top : QWidget.t) (m a : Z) :
  In a [Qt.AlignRight; Qt.AlignLeft] ->
  QWidget.minimumWidth (bottom_widget (__init__ bottom top m a))
  = QSize.width (QWidget.sizeHint bottom) + 2 * (QSize.width (QWidget.sizeHint top) + m).
Proof. intros [<- | [<- | []]]; reflexivity. Qed.

Lemma init_edge_minimum (bottom top : QWidget.t) (m a : Z) :
  In a [Qt.AlignTop; Qt.AlignBottom] ->
  QWidget.minimumHeight (bottom_widget (__init__ bottom top m a))
  = QSize.height (QWidget.sizeHint bottom) + 2 * (QSize.height (QWidget.sizeHint top) + m).
Proof. intros [<- | [<- | []]]; reflexivity. Qed.

Lemma init_stretch_minimum (bottom top : QWidget.t) (m a : Z) :
  (In a [Qt.AlignJustify; Qt.AlignAbsolute] ->
   QWidget.minimumWidth (bottom_widget (__init__ bottom top m a))
   = QWidget.minimumWidth (top_widget (__init__ bottom top m a)) + m)
  /\ (In a [Qt.AlignJustify; Qt.AlignBaseline] ->
      QWidget.minimumHeight (bottom_widget (__init__ bottom top m a))
      = QWidget.minimumHeight (top_widget (__init__ bottom top m a)) + m).
Proof. split; intros [<- | [<- | []]]; reflexivity. Qed.

Ltac with_built bottom top m a G :=
  let Hm' := fresh "Hbm" in let Ha' := fresh "Hba" in let Hg' := fresh "Hbg" in
  let Hw' := fresh "Hbw" in let Hh' := fresh "Hbh" in
  destruct (built_inputs bottom top m a G) as (Hm' & Ha' & Hg' & Hw' & Hh');
  cbv beta iota zeta delta
    [right_rect left_rect top_edge_rect bottom_edge_rect justify_rect absolute_rect
     baseline_rect fst snd];
  rewrite ?Hm', ?Hg', ?Hw', ?Hh'; open_rect.

Ltac stretch_case bottom top m c G L :=
  let Hal := fresh "Hal" in
  pose proof (proj1 (proj2 (built_inputs bottom top m c G))) as Hal;
  placed_by L; with_built bottom top m c G; div_lia.

(** X14: the minimum size the constructor asks for is enough for the side
    it handles.  With Right or Left, a margin and a preferred width of the
    top widget that are not negative and a bottom widget whose preferred
    width is at least one, a bottom widget that is as wide as its minimum
    width has the top widget between its left and right edges after a resize;
    with Top or Bottom the same holds for heights and the top and bottom
    edges. *)
Theorem built_fits (bottom top : QWidget.t) (m a : Z) (G : QRect.t)
    (event : option QEvent) :
  0 <= m ->
  (In a [Qt.AlignRight; Qt.AlignLeft] ->
   0 <= QSize.width (QWidget.sizeHint top) ->
   1 <= QSize.width (QWidget.sizeHint bottom) ->
   QWidget.minimumWidth (bottom_widget (__init__ bottom top m a)) <= QRect.width G ->
   inside_across (placed (built bottom top m a G) event) G)
  /\ (In a [Qt.AlignTop; Qt.AlignBottom] ->
      0 <= QSize.height (QWidget.sizeHint top) ->
      1 <= QSize.height (QWidget.sizeHint bottom) ->
      QWidget.minimumHeight (bottom_widget (__init__ bottom top m a)) <= QRect.height G ->
      inside_down (placed (built bottom top m a G) event) G).
Proof.
  intros Hm. split; intros Ha Ht Hb Hmin.
  - rewrite (init_side_minimum bottom top m a Ha) in Hmin.
    assert (Hin : In (alignment (built bottom top m a G)) [Qt.AlignRight; Qt.AlignLeft])
      by (now rewrite (proj1 (proj2 (built_inputs bottom top m a G)))).
    revert Hmin.
    destruct (placed_side _ event Hin) as [-> | ->];
      with_built bottom top m a G; div_lia.
  - rewrite (init_edge_minimum bottom top m a Ha) in Hmin.
    assert (Hin : In (alignment (built bottom top m a G)) [Qt.AlignTop; Qt.AlignBottom])
      by (now rewrite (proj1 (proj2 (built_inputs bottom top m a G)))).
    revert Hmin.
    destruct (placed_edge _ event Hin) as [-> | ->];
      with_built bottom top m a G; div_lia.
Qed.

Lemma built_fits_witness :
  inside_across
    (placed (built (button Qt.LeftToRight) checkbox 10 Qt.AlignRight
               (QRect.make 0 0 175 23)) None)
    (QRect.make 0 0 175 23).
Proof.
  refine (proj1 (built_fits (button Qt.LeftToRight) checkbox 10 Qt.AlignRight
                   (QRect.make 0 0 175 23) None _) _ _ _ _).
  - lia.
  - simpl. left; reflexivity.
  - simpl. lia.
  - simpl. lia.
  - vm_compute. discriminate.
Defined.

(** X15: with a stretching alignment the rectangle of a resize respects
    the minimum size the constructor gave the top widget.  With Justify or
    Absolute, a bottom widget as wide as its minimum width gives the top
    widget at least its minimum width; with Justify or Baseline the same
    holds for the heights. *)
Theorem built_stretch_respects_minimum (bottom top : QWidget.t) (m a : Z) (G : QRect.t)
    (event : option QEvent) :
  (In a [Qt.AlignJustify; Qt.AlignAbsolute] ->
   QWidget.minimumWidth (bottom_widget (__init__ bottom top m a)) <= QRect.width G ->
   QWidget.minimumWidth (top_widget (__init__ bottom top m a))
   <= QRect.width (placed (built bottom top m a G) event))
  /\ (In a [Qt.AlignJustify; Qt.AlignBaseline] ->
      QWidget.minimumHeight (bottom_widget (__init__ bottom top m a)) <= QRect.height G ->
      QWidget.minimumHeight (top_widget (__init__ bottom top m a))
      <= QRect.height (placed (built bottom top m a G) event)).
Proof.
  split; intros Ha Hmin.
  - rewrite (proj1 (init_stretch_minimum bottom top m a) Ha) in Hmin.
    revert Hmin. generalize (QWidget.minimumWidth (top_widget (__init__ bottom top m a))).
    intros least. simpl in Ha.
    destruct Ha as [<- | [<- | []]].
    + stretch_case bottom top m Qt.AlignJustify G resize_AlignJustify.
    + stretch_case bottom top m Qt.AlignAbsolute G resize_AlignAbsolute.
  - rewrite (proj2 (init_stretch_minimum bottom top m a) Ha) in Hmin.
    revert Hmin. generalize (QWidget.minimumHeight (top_widget (__init__ bottom top m a))).
    intros least. simpl in Ha.
    destruct Ha as [<- | [<- | []]].
    + stretch_case bottom top m Qt.AlignJustify G resize_AlignJustify.
    + stretch_case bottom top m Qt.AlignBaseline G resize_AlignBaseline.
Qed.

Lemma built_stretch_respects_minimum_witness :
  QWidget.minimumWidth
    (top_widget (__init__ (button Qt.LeftToRight) checkbox 10 Qt.AlignJustify))
  <= QRect.width
       (placed (built (button Qt.LeftToRight) checkbox 10 Qt.AlignJustify
                  (QRect.make 0 0 85 33)) None).
Proof.
  refine (proj1 (built_stretch_respects_minimum (button Qt.LeftToRight) checkbox 10
                   Qt.AlignJustify (QRect.make 0 0 85 33) None) _ _).
  - simpl. left; reflexivity.
  - vm_compute. discriminate.
Defined.

Ltac follow_by Hmoved Hself :=
  unfold placed;
  rewrite (getRect_inv _ _ _ _ _ Hmoved), (getRect_inv _ _ _ _ _ Hself);
  cbn [moved laid_out on_bottom hint_width hint_height widget margin bottom_widget top_widget
       QWidget.geometry QWidget.sizeHint];
  open_rect;
  cbn [moved laid_out on_bottom margin bottom_widget top_widget
       QWidget.geometry QWidget.sizeHint];
  f_equal; div_lia.

(** X16: the rectangle follows the bottom widget.  With a handled
    alignment, moving the geometry of the bottom widget by [(dx, dy)] moves
    the rectangle a resize sets by [(dx, dy)] and leaves its size as it
    was. *)
Theorem resize_follows_bottom (self : StackedWidget.t) (event : option QEvent)
    (dx dy : Z) :
  In (alignment self) handled_alignments ->
  placed (moved dx dy self) event = translated dx dy (placed self event).
Proof.
  intros Ha. apply In_handled_cases in Ha.
  destruct Ha as [Ha | [Ha | [Ha | [Ha | [Ha | [Ha | [Ha | [Ha | [Ha | Ha]]]]]]]]].
  - follow_by (resize_AlignRight (moved dx dy self) event Ha) (resize_AlignRight self event Ha).
  - destruct (QWidget.layoutDirection (bottom_widget self)) eqn:Hd.
    + assert (Hn : QWidget.layoutDirection (bottom_widget self) <> Qt.RightToLeft)
        by (rewrite Hd; discriminate).
      follow_by (resize_AlignLeft (moved dx dy self) event Ha Hn)
                (resize_AlignLeft self event Ha Hn).
    + follow_by (resize_AlignLeft_rtl (moved dx dy self) event Ha Hd)
                (resize_AlignLeft_rtl self event Ha Hd).
    + assert (Hn : QWidget.layoutDirection (bottom_widget self) <> Qt.RightToLeft)
        by (rewrite Hd; discriminate).
      follow_by (resize_AlignLeft (moved dx dy self) event Ha Hn)
                (resize_AlignLeft self event Ha Hn).
  - follow_by (resize_AlignTop (moved dx dy self) event Ha) (resize_AlignTop self event Ha).
  - follow_by (resize_AlignBottom (moved dx dy self) event Ha) (resize_AlignBottom self event Ha).
  - follow_by (resize_AlignCenter (moved dx dy self) event Ha) (resize_AlignCenter self event Ha).
  - follow_by (resize_AlignHCenter (moved dx dy self) event Ha) (resize_AlignHCenter self event Ha).
  - follow_by (resize_AlignVCenter (moved dx dy self) event Ha) (resize_AlignVCenter self event Ha).
  - follow_by (resize_AlignJustify (moved dx dy self) event Ha) (resize_AlignJustify self event Ha).
  - follow_by (resize_AlignAbsolute (moved dx dy self) event Ha) (resize_AlignAbsolute self event Ha).
  - follow_by (resize_AlignBaseline (moved dx dy self) event Ha) (resize_AlignBaseline self event Ha).
Qed.

Lemma resize_follows_bottom_witness :
  placed (moved 7 (-3) (table_overlay (button Qt.LeftToRight) checkbox Qt.AlignBottom))
    None
  = QRect.make 87 66 40 20.
Proof.
  rewrite (resize_follows_bottom
             (table_overlay (button Qt.LeftToRight) checkbox Qt.AlignBottom) None 7 (-3)).
  - reflexivity.
  - simpl. do 5 right. left. reflexivity.
Defined.

(** *** The binding scan: what a result tells *)

Lemma scan_loaded_inv (env : Interp) (l : list string) (q q' : option string)
    (tr tr' : list string) :
  scan_loaded env l q tr = (Ok q', tr') ->
  (q' = q /\ exists tried, tr' = tr ++ tried)
  \/ exists b before,
       In b l /\ q' = Some b /\ importable env b /\ tr' = tr ++ before ++ [QtCore b].
Proof.
  revert tr. induction l as [| b l IH]; intros tr; simpl.
  - unfold ret. intros H. injection H as <- <-. left. split; [reflexivity |].
    exists []. now rewrite app_nil_r.
  - assert (IHr : forall pre,
                  scan_loaded env l q (tr ++ pre) = (Ok q', tr') ->
                  (q' = q /\ exists tried, tr' = tr ++ tried)
                  \/ exists b0 before,
                       (b = b0 \/ In b0 l) /\ q' = Some b0 /\ importable env b0
                       /\ tr' = tr ++ before ++ [QtCore b0]).
    { intros pre H.
      destruct (IH _ H) as [[-> (tried & ->)] | (b0 & before & Hin & -> & Hi & ->)].
      - left. split; [reflexivity |]. exists (pre ++ tried). now rewrite app_assoc.
      - right. exists b0, (pre ++ before). rewrite <- !app_assoc. auto. }
    destruct (sys_modules env b).
    + unfold try_except, importlib_import_module.
      destruct (import_module env (QtCore b)) as [m | e] eqn:Hm.
      * unfold ret. intros H. injection H as <- <-. right. exists b, [].
        repeat split; auto. now exists m.
      * destruct (is_Exception e); [| discriminate].
        apply (IHr [QtCore b]).
    + intros H. apply (IHr []). now rewrite app_nil_r.
Qed.

Lemma scan_all_inv (env : Interp) (l : list string) (q q' : option string)
    (tr tr' : list string) :
  scan_all env l q tr = (Ok q', tr') ->
  (q' = q /\ Forall (not_importable env) l)
  \/ exists b before,
       In b l /\ q' = Some b /\ importable env b /\ tr' = tr ++ before ++ [QtCore b].
Proof.
  revert tr. induction l as [| b l IH]; intros tr; simpl.
  - unfold ret. intros H. injection H as <- _. left. split; [reflexivity | constructor].
  - unfold try_except, importlib_import_module.
    destruct (import_module env (QtCore b)) as [m | e] eqn:Hm.
    + unfold ret. intros H. injection H as <- <-. right. exists b, [].
      repeat split; auto. now exists m.
    + destruct e as [msg | msg | msg]; try discriminate. cbn [is_ImportError].
      intros H. destruct (IH _ H) as [[-> Hall] | (b0 & before & Hin & -> & Hi & ->)].
      * left. split; [reflexivity |]. constructor; [now exists msg | exact Hall].
      * right. exists b0, (QtCore b :: before). rewrite <- !app_assoc. auto.
Qed.

Lemma scan_loaded_raises (env : Interp) (l : list string) (q : option string)
    (e : exn) (tr tr' : list string) :
  scan_loaded env l q tr = (Raise e, tr') -> is_Exception e = false.
Proof.
  revert tr. induction l as [| b l IH]; intros tr; simpl; [discriminate |].
  destruct (sys_modules env b); [| apply IH].
  unfold try_except, importlib_import_module.
  destruct (import_module env (QtCore b)) as [m | e0]; [discriminate |].
  destruct (is_Exception e0) eqn:He0; [apply IH |].
  intros H. injection H as <- _. exact He0.
Qed.

Lemma scan_all_raises (env : Interp) (l : list string) (q : option string)
    (e : exn) (tr tr' : list string) :
  scan_all env l q tr = (Raise e, tr') -> is_ImportError e = false.
Proof.
  revert tr. induction l as [| b l IH]; intros tr; simpl; [discriminate |].
  unfold try_except, importlib_import_module.
  destruct (import_module env (QtCore b)) as [m | e0]; [discriminate |].
  destruct (is_ImportError e0) eqn:He0; [apply IH |].
  intros H. injection H as <- _. exact He0.
Qed.

Lemma scan_loaded_attempts (env : Interp) (l : list string) (q : option string)
    (tr : list string) :
  exists tried,
    snd (scan_loaded env l q tr) = tr ++ map QtCore tried
    /\ incl tried l
    /\ (List.length tried <= List.length (filter (sys_modules env) l))%nat.
Proof.
  revert tr. induction l as [| b l IH]; intros tr; simpl.
  - exists []. simpl. rewrite app_nil_r. repeat split; [apply incl_refl | lia].
  - destruct (sys_modules env b) eqn:Hs.
    + unfold try_except, importlib_import_module.
      destruct (import_module env (QtCore b)) as [m | e].
      * exists [b]. simpl. repeat split; [| lia].
        intros x [<- | []]. now left.
      * destruct (is_Exception e).
        -- destruct (IH (tr ++ [QtCore b])) as (tried & Ht & Hi & Hl).
           exists (b :: tried). rewrite Ht. simpl. rewrite <- app_assoc.
           repeat split; [| lia].
           intros x [<- | Hx]; [now left | right; now apply Hi].
        -- exists [b]. simpl. repeat split; [| lia].
           intros x [<- | []]. now left.
    + destruct (IH tr) as (tried & Ht & Hi & Hl).
      exists tried. repeat split; [exact Ht | | exact Hl].
      intros x Hx. right. now apply Hi.
Qed.

Lemma scan_all_attempts (env : Interp) (l : list string) (q : option string)
    (tr : list string) :
  exists tried,
    snd (scan_all env l q tr) = tr ++ map QtCore tried
    /\ incl tried l
    /\ (List.length tried <= List.length l)%nat.
Proof.
  revert tr. induction l as [| b l IH]; intros tr; simpl.
  - exists []. simpl. rewrite app_nil_r. repeat split; [apply incl_refl | lia].
  - unfold try_except, importlib_import_module.
    destruct (import_module env (QtCore b)) as [m | e].
    + exists [b]. simpl. repeat split; [| lia].
      intros x [<- | []]. now left.
    + destruct (is_ImportError e).
      * destruct (IH (tr ++ [QtCore b])) as (tried & Ht & Hi & Hl).
        exists (b :: tried). rewrite Ht. simpl. rewrite <- app_assoc.
        repeat split; [| lia].
        intros x [<- | Hx]; [now left | right; now apply Hi].
      * exists [b]. simpl. repeat split; [| lia].
        intros x [<- | []]. now left.
Qed.

(** X17: the binding the scan settles on is one of the six supported
    ones, the import of its [QtCore] has succeeded, and that import is the
    last one the scan attempted. *)
Theorem QtBindings_scan_sound (env : Interp) (q : option string) (tr tr' : list string) :
  QtBindings_scan env tr = (Ok q, tr') ->
  exists b before,
    q = Some b /\ In b supported_qt_bindings /\ importable env b
    /\ tr' = tr ++ before ++ [QtCore b].
Proof.
  unfold QtBindings_scan, bind.
  destruct (scan_loaded env supported_qt_bindings None tr) as [[q1 | e1] tr1] eqn:H1;
    [| discriminate].
  apply scan_loaded_inv in H1.
  destruct H1 as [[-> (tried & ->)] | (b & before & Hin & -> & Hi & ->)].
  - cbn [truthy negb].
    destruct (scan_all env supported_qt_bindings None (tr ++ tried))
      as [[q2 | e2] tr2] eqn:H2; [| discriminate].
    apply scan_all_inv in H2.
    destruct H2 as [[-> _] | (b & before & Hin & -> & Hi & ->)]; [discriminate |].
    rewrite (supported_truthy b Hin). unfold ret. intros H. injection H as <- <-.
    exists b, (tried ++ before). rewrite <- !app_assoc. auto.
  - rewrite (supported_truthy b Hin). cbn [negb]. unfold ret at 1. cbv beta iota.
    rewrite (supported_truthy b Hin). unfold ret. intros H. injection H as <- <-.
    exists b, before. auto.
Qed.

Lemma QtBindings_scan_sound_witness :
  exists b before,
    Some "PyQt5"%string = Some b /\ In b supported_qt_bindings
    /\ importable with_PyQt5_loaded b
    /\ ["PyQt5.QtCore"%string] = [] ++ before ++ [QtCore b].
Proof.
  apply (QtBindings_scan_sound with_PyQt5_loaded (Some "PyQt5"%string) []
           ["PyQt5.QtCore"%string]).
  reflexivity.
Defined.

(** X18: the scan raises an [ImportError] only at its end, with the
    message that names the six bindings, and only when the import of every
    supported binding has raised [ImportError]. *)
Theorem no_binding_only_if (env : Interp) (msg : string) (tr tr' : list string) :
  QtBindings_scan env tr = (Raise (ImportError msg), tr') ->
  msg = no_binding_message /\ Forall (not_importable env) supported_qt_bindings.
Proof.
  unfold QtBindings_scan, bind.
  destruct (scan_loaded env supported_qt_bindings None tr) as [[q1 | e1] tr1] eqn:H1.
  - apply scan_loaded_inv in H1.
    destruct H1 as [[-> _] | (b & before & Hin & -> & Hi & ->)].
    + cbn [truthy negb].
      destruct (scan_all env supported_qt_bindings None tr1) as [[q2 | e2] tr2] eqn:H2.
      * apply scan_all_inv in H2.
        destruct H2 as [[-> Hall] | (b & before & Hin & -> & Hi & ->)].
        -- cbn [truthy negb]. unfold raise. intros H. injection H as <- _.
           split; [reflexivity | exact Hall].
        -- rewrite (supported_truthy b Hin). discriminate.
      * apply scan_all_raises in H2. intros H. injection H as -> _. discriminate H2.
    + rewrite (supported_truthy b Hin). cbn [negb]. unfold ret at 1. cbv beta iota.
      rewrite (supported_truthy b Hin). discriminate.
  - apply scan_loaded_raises in H1. intros H. injection H as -> _. discriminate H1.
Qed.

Lemma no_binding_only_if_witness :
  no_binding_message = no_binding_message
  /\ Forall (not_importable without_bindings) supported_qt_bindings.
Proof.
  apply (no_binding_only_if without_bindings no_binding_message []
           (map QtCore supported_qt_bindings)).
  reflexivity.
Defined.

(** X19: the scan imports nothing but the [QtCore] of supported bindings,
    and not more often than there are supported bindings in [sys.modules]
    plus six: the first loop tries only bindings found there, the second
    each binding at most once.  This holds however the scan ends. *)
Theorem QtBindings_scan_attempts (env : Interp) (tr : list string) :
  exists tried,
    snd (QtBindings_scan env tr) = tr ++ map QtCore tried
    /\ incl tried supported_qt_bindings
    /\ (List.length tried
        <= List.length (filter (sys_modules env) supported_qt_bindings) + 6)%nat.
Proof.
  unfold QtBindings_scan, bind.
  destruct (scan_loaded_attempts env supported_qt_bindings None tr) as (t1 & H1 & I1 & L1).
  destruct (scan_loaded env supported_qt_bindings None tr) as [[q1 | e1] tr1];
    simpl in H1; subst tr1.
  - destruct (negb (truthy q1)) eqn:Hq1.
    + destruct (scan_all_attempts env supported_qt_bindings q1 (tr ++ map QtCore t1))
        as (t2 & H2 & I2 & L2).
      change (List.length supported_qt_bindings) with 6%nat in L2.
      destruct (scan_all env supported_qt_bindings q1 (tr ++ map QtCore t1))
        as [[q2 | e2] tr2]; simpl in H2; subst tr2.
      * exists (t1 ++ t2).
        assert (Hs : snd ((if negb (truthy q2)
                           then raise (ImportError no_binding_message)
                           else ret q2) ((tr ++ map QtCore t1) ++ map QtCore t2))
                     = (tr ++ map QtCore t1) ++ map QtCore t2)
          by (destruct (negb (truthy q2)); reflexivity).
        rewrite Hs, map_app, app_assoc, length_app.
        repeat split; [now apply incl_app | lia].
      * exists (t1 ++ t2). cbn [snd]. rewrite map_app, app_assoc, length_app.
        repeat split; [now apply incl_app | lia].
    + exists t1. unfold ret at 1. cbv beta iota. rewrite Hq1. unfold ret. cbn [snd].
      repeat split; [exact I1 | lia].
  - exists t1. cbn [snd]. repeat split; [exact I1 | lia].
Qed.

(** X20: the second loop lets through what is not an [ImportError].  When
    the first loop has chosen nothing and the bindings before [b] fail with
    [ImportError], an exception of another type raised by the import of [b]
    ends the scan, whether or not a binding after [b] could be imported. *)
Theorem second_loop_lets_through (env : Interp) (pre post : list string) (b : string)
    (e : exn) (tr : list string) :
  supported_qt_bindings = pre ++ b :: post ->
  Forall (passed_over env) supported_qt_bindings ->
  Forall (not_importable env) pre ->
  import_module env (QtCore b) = Raise e ->
  is_ImportError e = false ->
  QtBindings_scan env tr
  = (Raise e,
     tr ++ map QtCore (filter (sys_modules env) supported_qt_bindings)
        ++ map QtCore pre ++ [QtCore b]).
Proof.
  intros Hs Hnone Hpre He Hk.
  unfold QtBindings_scan, bind.
  rewrite <- (app_nil_r supported_qt_bindings) at 1.
  rewrite (scan_loaded_passes env supported_qt_bindings [] None Hnone).
  cbn [scan_loaded ret truthy negb].
  rewrite Hs at 1.
  rewrite (scan_all_passes env pre (b :: post) None Hpre).
  cbn [scan_all]. unfold try_except, importlib_import_module.
  rewrite He, Hk. now rewrite <- !app_assoc.
Qed.

Lemma second_loop_lets_through_witness :
  importable with_broken_PySide6 "PyQt5"
  /\ fst (QtBindings_scan with_broken_PySide6 []) = Raise (OtherException "broken").
Proof.
  split; [eexists; reflexivity |].
  rewrite (second_loop_lets_through with_broken_PySide6 []
             ["PyQt6"; "PyQt5"; "PySide2"; "PyQt4"; "PySide"]%string
             "PySide6"%string (OtherException "broken") []).
  - reflexivity.
  - reflexivity.
  - repeat constructor.
  - constructor.
  - reflexivity.
  - reflexivity.
Defined.

(** *** [import_qt_module]: the ways it fails *)

(** X21: how [import_qt_module] fails.  Without a binding ([None] or the
    empty string) it raises "No Qt binding loaded." and imports nothing.
    With a binding, an [ImportError] of the import comes back as an
    [ImportError] whose message is "Module '<name>' could not be loaded: "
    followed by the text of the original one; an exception of any other type
    comes back as it is.  In both cases the import was attempted once. *)
Theorem import_qt_module_failures (env : Interp) (QtBindings : option string)
    (module_name : string) (tr : list string) :
  (truthy QtBindings = false ->
   import_qt_module env QtBindings module_name tr
   = (Raise (ImportError "No Qt binding loaded."), tr))
  /\ (forall binding e,
        QtBindings = Some binding -> truthy QtBindings = true ->
        import_module env (binding ++ "." ++ module_name)%string = Raise e ->
        import_qt_module env QtBindings module_name tr
        = (Raise (if is_ImportError e
                  then ImportError
                         ("Module '" ++ module_name ++ "' could not be loaded: "
                          ++ str e)%string
                  else e),
           tr ++ [(binding ++ "." ++ module_name)%string])).
Proof.
  split.
  - intros Ht. unfold import_qt_module. destruct QtBindings as [b |]; [| reflexivity].
    now rewrite Ht.
  - intros binding e -> Ht He. unfold import_qt_module. rewrite Ht.
    unfold try_except, importlib_import_module. rewrite He.
    destruct (is_ImportError e); reflexivity.
Qed.

Lemma import_qt_module_failures_witness :
  import_qt_module with_broken_PySide6 (Some "PySide6"%string) "QtCore" []
  = (Raise (OtherException "broken"), ["PySide6.QtCore"%string])
  /\ import_qt_module with_broken_PySide6 (Some ""%string) "QtCore" []
     = (Raise (ImportError "No Qt binding loaded."), []).
Proof.
  destruct (import_qt_module_failures with_broken_PySide6 (Some "PySide6"%string)
              "QtCore" []) as [_ Hraise].
  destruct (import_qt_module_failures with_broken_PySide6 (Some ""%string)
              "QtCore" []) as [Hnone _].
  split.
  - apply (Hraise "PySide6"%string (OtherException "broken")); reflexivity.
  - apply Hnone. reflexivity.
Defined.

(** X22: once the scan has set [QtBindings], an attribute access on the
    package, which [__getattr__] hands to [import_qt_module], always attempts
    the import of the submodule of that binding, exactly once, and never
    raises "No Qt binding loaded.". *)
Theorem getattr_after_scan (env : Interp) (QtBindings : option string)
    (name : string) (tr0 tr1 tr : list string) :
  QtBindings_scan env tr0 = (Ok QtBindings, tr1) ->
  exists binding,
    QtBindings = Some binding
    /\ In binding supported_qt_bindings
    /\ snd (Hook.__getattr__ env QtBindings name tr)
       = tr ++ [(binding ++ "." ++ name)%string]
    /\ fst (Hook.__getattr__ env QtBindings name tr)
       <> Raise (ImportError "No Qt binding loaded.").
Proof.
  intros Hscan.
  destruct (QtBindings_scan_result env QtBindings tr0 tr1 Hscan)
    as (binding & Hin & -> & Ht).
  exists binding. split; [reflexivity |]. split; [exact Hin |].
  unfold Hook.__getattr__, import_qt_module. rewrite Ht.
  unfold try_except, importlib_import_module.
  destruct (import_module env (binding ++ "." ++ name)%string) as [m | e].
  - split; [reflexivity | discriminate].
  - destruct e as [msg | msg | msg]; cbn [is_ImportError fst snd];
      (split; [reflexivity | discriminate]).
Qed.

Lemma getattr_after_scan_witness :
  exists binding,
    Some "PyQt5"%string = Some binding
    /\ In binding supported_qt_bindings
    /\ snd (Hook.__getattr__ with_PyQt5_loaded (Some "PyQt5"%string) "QtSvg" [])
       = [] ++ [(binding ++ "." ++ "QtSvg")%string]
    /\ fst (Hook.__getattr__ with_PyQt5_loaded (Some "PyQt5"%string) "QtSvg" [])
       <> Raise (ImportError "No Qt binding loaded.").
Proof.
  apply (getattr_after_scan with_PyQt5_loaded (Some "PyQt5"%string) "QtSvg" []
           ["PyQt5.QtCore"%string] []).
  reflexivity.
Defined.

(** *** The import hook *)

Lemma prefix_append (p s : string) : String.prefix p (p ++ s) = true.
Proof.
  induction p as [| c p IH]; simpl; [now destruct s |].
  destruct (Ascii.ascii_dec c c) as [_ | Hc]; [exact IH | now elim Hc].
Qed.

Lemma drop_append (p s : string) : PyStr.drop (String.length p) (p ++ s) = s.
Proof. induction p as [| c p IH]; simpl; [now destruct s | exact IH]. Qed.

Lemma sub_prefix_append (p s : string) : PyStr.sub_prefix p (p ++ s) = s.
Proof. unfold PyStr.sub_prefix. now rewrite prefix_append, drop_append. Qed.

Lemma replace_from_skip (old new t s : string) :
  PyStr.replace_from old new (String.length t) (t ++ s)
  = PyStr.replace_from old new 0 s.
Proof.
  induction t as [| c t IH]; simpl; [reflexivity | exact IH].
Qed.

Lemma replace_from_absent (old new s : string) :
  occurs old s = false -> PyStr.replace_from old new 0 s = s.
Proof.
  induction s as [| c s IH]; [reflexivity |].
  cbn [occurs PyStr.replace_from]. intros H.
  apply orb_false_elim in H as [Hp Hr]. rewrite Hp. now rewrite (IH Hr).
Qed.

(** What happens at the first occurrence: it is replaced, and the search
    goes on after it. *)
Lemma replace_at_start (old new s : string) :
  old <> EmptyString ->
  PyStr.replace (old ++ s) old new = (new ++ PyStr.replace_from old new 0 s)%string.
Proof.
  destruct old as [| c old]; [congruence |]. intros _.
  unfold PyStr.replace.
  change (String c old ++ s)%string with (String c (old ++ s)).
  cbn [PyStr.replace_from].
  change (String c (old ++ s)) with (String c old ++ s)%string.
  rewrite prefix_append.
  cbn [String.length Nat.sub]. rewrite Nat.sub_0_r.
  now rewrite replace_from_skip.
Qed.

Lemma str_py_in_false (x : string) (l : list string) :
  ~ In x l -> PyStr.py_in x l = false.
Proof.
  intros Hn. unfold PyStr.py_in.
  destruct (existsb (String.eqb x) l) eqn:He; [| reflexivity].
  apply existsb_exists in He as (y & Hy & Heq).
  apply String.eqb_eq in Heq. subst y. contradiction.
Qed.

Lemma str_py_in_true (x : string) (l : list string) :
  In x l -> PyStr.py_in x l = true.
Proof.
  intros Hin. unfold PyStr.py_in. apply existsb_exists.
  exists x. split; [exact Hin | apply String.eqb_refl].
Qed.

Lemma find_spec_dotted (QtBindings : string) (balQt_attributes : list string)
    (sub : string) :
  ~ In sub balQt_attributes ->
  occurs "balQt" sub = false ->
  Hook.find_spec the_finder QtBindings balQt_attributes ("balQt." ++ sub)%string
  = Some {| Hook.name := ("balQt." ++ sub)%string;
            Hook.loader :=
              {| Hook.module_name := (QtBindings ++ "." ++ sub)%string |} |}.
Proof.
  intros Hn Ho. unfold Hook.find_spec, PyStr.startswith, the_finder.
  cbn [Hook.package_name].
  assert (Hsub : PyStr.sub_prefix "balQt." ("balQt." ++ sub) = sub)
    by apply sub_prefix_append.
  rewrite Hsub, (str_py_in_false sub balQt_attributes Hn).
  assert (Hdot : ("balQt." ++ sub)%string = ("balQt" ++ ("." ++ sub))%string)
    by reflexivity.
  rewrite Hdot, prefix_append, replace_at_start by discriminate.
  rewrite replace_from_absent; [reflexivity |].
  cbn [occurs append]. rewrite Ho. reflexivity.
Qed.

(** X23: what the finder leaves to the other finders.  For a name that
    does not start with "balQt" it returns [None]; so it does for a
    submodule of [balQt] whose name is one of [balQt_attributes], such as the
    package's own [stacked_widget]. *)
Theorem find_spec_declines (QtBindings : string) (balQt_attributes : list string) :
  (forall name,
     String.prefix "balQt" name = false ->
     Hook.find_spec the_finder QtBindings balQt_attributes name = None)
  /\ (forall local,
        In local balQt_attributes ->
        Hook.find_spec the_finder QtBindings balQt_attributes ("balQt." ++ local)%string
        = None).
Proof.
  split.
  - intros name Hp. unfold Hook.find_spec, PyStr.startswith, the_finder.
    cbn [Hook.package_name]. now rewrite Hp.
  - intros local Hin. unfold Hook.find_spec, PyStr.startswith, the_finder.
    cbn [Hook.package_name].
    assert (Hsub : PyStr.sub_prefix "balQt." ("balQt." ++ local) = local)
      by apply sub_prefix_append.
    rewrite Hsub, (str_py_in_true local balQt_attributes Hin).
    assert (Hdot : ("balQt." ++ local)%string = ("balQt" ++ ("." ++ local))%string)
      by reflexivity.
    now rewrite Hdot, prefix_append.
Qed.

Lemma find_spec_declines_witness :
  Hook.find_spec the_finder "PyQt5" ["stacked_widget"%string] "balQt.stacked_widget" = None
  /\ Hook.find_spec the_finder "PyQt5" ["stacked_widget"%string] "os.path" = None.
Proof.
  destruct (find_spec_declines "PyQt5" ["stacked_widget"%string]) as [Hforeign Hlocal].
  split.
  - apply (Hlocal "stacked_widget"%string). now left.
  - apply Hforeign. reflexivity.
Defined.

(** X24: where the finder redirects.  A submodule [balQt.<sub>] that is not
    one of [balQt_attributes], and in whose name "balQt" does not occur
    again, gets a spec under its own name whose loader imports
    [<QtBindings>.<sub>].  The test is [startswith] without the dot: a name
    that only begins with the letters "balQt" and is not an attribute gets a
    spec as well, its loader aimed at the name with these letters replaced
    by the binding. *)
Theorem find_spec_redirects (QtBindings : string) (balQt_attributes : list string) :
  (forall sub,
     ~ In sub balQt_attributes ->
     occurs "balQt" sub = false ->
     Hook.find_spec the_finder QtBindings balQt_attributes ("balQt." ++ sub)%string
     = Some {| Hook.name := ("balQt." ++ sub)%string;
               Hook.loader :=
                 {| Hook.module_name := (QtBindings ++ "." ++ sub)%string |} |})
  /\ (forall rest,
        String.prefix "." rest = false ->
        ~ In ("balQt" ++ rest)%string balQt_attributes ->
        occurs "balQt" rest = false ->
        Hook.find_spec the_finder QtBindings balQt_attributes ("balQt" ++ rest)%string
        = Some {| Hook.name := ("balQt" ++ rest)%string;
                  Hook.loader :=
                    {| Hook.module_name := (QtBindings ++ rest)%string |} |}).
Proof.
  split.
  - intros sub Hn Ho. now apply find_spec_dotted.
  - intros rest Hdot Hn Ho. unfold Hook.find_spec, PyStr.startswith, the_finder.
    cbn [Hook.package_name].
    rewrite prefix_append.
    assert (Hsub : PyStr.sub_prefix "balQt." ("balQt" ++ rest) = ("balQt" ++ rest)%string).
    { unfold PyStr.sub_prefix.
      assert (Hp : String.prefix "balQt." ("balQt" ++ rest) = false).
      { change "balQt."%string with ("balQt" ++ ".")%string.
        clear - Hdot. simpl. simpl in Hdot. exact Hdot. }
      now rewrite Hp. }
    rewrite Hsub, (str_py_in_false _ balQt_attributes Hn).
    rewrite replace_at_start by discriminate.
    now rewrite replace_from_absent.
Qed.

Lemma find_spec_redirects_witness :
  Hook.find_spec the_finder "PyQt5" ["stacked_widget"%string] "balQt.QtWidgets"
  = Some {| Hook.name := "balQt.QtWidgets";
            Hook.loader := {| Hook.module_name := "PyQt5.QtWidgets" |} |}.
Proof.
  apply (proj1 (find_spec_redirects "PyQt5" ["stacked_widget"%string]) "QtWidgets"%string).
  - simpl. intros [H | []]. discriminate H.
  - reflexivity.
Defined.

(** X25: importing [balQt.<sub>] through the hook.  For a submodule that
    is not an attribute of the package, the module the finder's loader
    executes is the one created under the name [balQt.<sub>].  When the
    import of [<QtBindings>.<sub>] succeeds, [exec_module] puts the imported
    module in [sys.modules] under [balQt.<sub>], changes no other entry the
    import left, and hands its attributes to the module object.  When the
    import raises [ImportError], [exec_module] raises an [ImportError] that
    names [<QtBindings>.<sub>] and carries no text of the original one; any
    other exception comes back as it is. *)
Theorem hook_import (imp : Hook.Importer) (QtBindings : string)
    (balQt_attributes : list string) (sub : string) (d : Hook.modules) :
  ~ In sub balQt_attributes ->
  occurs "balQt" sub = false ->
  let alias := ("balQt." ++ sub)%string in
  let target := (QtBindings ++ "." ++ sub)%string in
  exists spec,
    Hook.find_spec the_finder QtBindings balQt_attributes alias = Some spec
    /\ __name__ (Hook.create_module (Hook.loader spec) spec) = alias
    /\ forall outcome d',
         Hook.run_import imp target d = (outcome, d') ->
         let run := Hook.exec_module imp (Hook.loader spec)
                      (Hook.create_module (Hook.loader spec) spec) d in
         match outcome with
         | Ok imported =>
             fst run = Ok imported
             /\ snd run alias = Some imported
             /\ forall key, key <> alias -> snd run key = d' key
         | Raise e =>
             snd run = d'
             /\ fst run
                = Raise (if is_ImportError e
                         then ImportError
                                ("Module '" ++ target ++ "' could not be loaded.")%string
                         else e)
         end.
Proof.
  intros Hn Ho alias target. subst alias target.
  eexists. split; [apply (find_spec_dotted QtBindings balQt_attributes sub Hn Ho) |].
  split; [reflexivity |].
  intros outcome d' Hrun. unfold Hook.exec_module.
  cbn [Hook.loader Hook.module_name Hook.create_module Hook.name __name__].
  rewrite Hrun.
  destruct outcome as [imported | e].
  - cbn [fst snd]. split; [now destruct imported |]. split.
    + unfold Hook.setitem. now rewrite String.eqb_refl.
    + intros key Hkey. unfold Hook.setitem.
      destruct (String.eqb key ("balQt." ++ sub)) eqn:Heq; [| reflexivity].
      apply String.eqb_eq in Heq. contradiction.
  - destruct (is_ImportError e); cbn [fst snd]; split; reflexivity.
Qed.

Lemma hook_import_witness :
  snd (Hook.exec_module PyQt5_importer {| Hook.module_name := "PyQt5.QtWidgets" |}
         {| __name__ := "balQt.QtWidgets" |} no_modules) "balQt.QtWidgets"%string
  = Some {| __name__ := "PyQt5.QtWidgets" |}.
Proof.
  destruct (hook_import PyQt5_importer "PyQt5" ["stacked_widget"%string] "QtWidgets"
              no_modules) as (spec & Hspec & _ & Hexec).
  - simpl. intros [H | []]. discriminate H.
  - reflexivity.
  - injection Hspec as <-.
    exact (proj1 (proj2 (Hexec (Ok {| __name__ := "PyQt5.QtWidgets" |}) _ eq_refl))).
Defined.

(** *** The export list *)

(** X26: what [__all__] ends as.  Whenever the step returns, the list
    starts with [balQt_attributes] in their order, followed only by names
    that are not among them.  When the import of the binding raises an
    exception derived from [Exception], the list is [balQt_attributes]
    alone.  When the import succeeds, every name of the binding's [__all__]
    is in the list, and the list has no duplicate if neither
    [balQt_attributes] nor the binding's [__all__] has one. *)
Theorem extend_all_result (env : Interp) (module_all : ModuleType -> option (list string))
    (QtBindings : option string) (balQt_attributes : list string) (tr : list string) :
  (forall l tr',
     Hook.extend_all env module_all QtBindings balQt_attributes tr = (Ok l, tr') ->
     exists added,
       l = balQt_attributes ++ added
       /\ Forall (fun x => ~ In x balQt_attributes) added)
  /\ (forall binding e,
        QtBindings = Some binding -> truthy QtBindings = true ->
        import_module env binding = Raise e -> is_Exception e = true ->
        Hook.extend_all env module_all QtBindings balQt_attributes tr
        = (Ok balQt_attributes, tr ++ [binding]))
  /\ (forall binding qt_module qt_all l tr',
        QtBindings = Some binding -> truthy QtBindings = true ->
        import_module env binding = Ok qt_module ->
        module_all qt_module = Some qt_all ->
        Hook.extend_all env module_all QtBindings balQt_attributes tr = (Ok l, tr') ->
        (forall x, In x qt_all -> In x l)
        /\ (NoDup balQt_attributes -> NoDup qt_all -> NoDup l)).
Proof.
  assert (Hfilter : forall names,
            Forall (fun x => ~ In x balQt_attributes)
                   (filter (fun item => negb (PyStr.py_in item balQt_attributes)) names)).
  { intros names. apply Forall_forall. intros x Hx.
    apply filter_In in Hx as [_ Hx]. apply negb_true_iff in Hx.
    intros Hin. now rewrite (str_py_in_true x balQt_attributes Hin) in Hx. }
  refine (conj _ (conj _ _)).
  - intros l tr'. unfold Hook.extend_all.
    destruct QtBindings as [binding |];
      [| unfold ret; intros H; injection H as <- _; exists [];
         split; [now rewrite app_nil_r | constructor]].
    destruct (truthy (Some binding));
      [| unfold ret; intros H; injection H as <- _; exists [];
         split; [now rewrite app_nil_r | constructor]].
    unfold try_except, importlib_import_module.
    destruct (import_module env binding) as [qt | e].
    + unfold ret. intros H. injection H as <- _. eexists. split; [reflexivity |].
      apply Hfilter.
    + destruct (is_Exception e); [| discriminate].
      unfold ret. intros H. injection H as <- _. exists [].
      split; [now rewrite app_nil_r | constructor].
  - intros binding e -> Ht He Hexc. unfold Hook.extend_all. rewrite Ht.
    unfold try_except, importlib_import_module. now rewrite He, Hexc.
  - intros binding qt qt_all l tr' -> Ht Hqt Hall. unfold Hook.extend_all. rewrite Ht.
    unfold try_except, importlib_import_module. rewrite Hqt, Hall.
    unfold ret. intros H. injection H as <- _. split.
    + intros x Hx. apply in_or_app.
      destruct (in_dec string_dec x balQt_attributes) as [Hin | Hnin]; [now left |].
      right. apply filter_In. split; [exact Hx |].
      now rewrite (str_py_in_false x balQt_attributes Hnin).
    + intros Hnd1 Hnd2.
      assert (Hdisj : forall x, In x balQt_attributes ->
                ~ In x (filter (fun item => negb (PyStr.py_in item balQt_attributes)) qt_all)).
      { intros x Hx Hf. pose proof (Hfilter qt_all) as HF.
        rewrite Forall_forall in HF. exact (HF x Hf Hx). }
      apply NoDup_app; [exact Hnd1 | now apply NoDup_filter | exact Hdisj].
Qed.

Lemma extend_all_result_witness :
  In "QtGui"%string
     (["stacked_widget"%string; "QtBindings"%string]
      ++ ["QtCore"%string; "QtGui"%string]).
Proof.
  refine (proj1 (proj2 (proj2 (extend_all_result with_broken_PySide6
                                 (fun _ => Some ["QtCore"; "stacked_widget"; "QtGui"]%string)
                                 (Some "PyQt5"%string)
                                 ["stacked_widget"; "QtBindings"]%string []))
                  "PyQt5"%string {| __name__ := "PyQt5" |}
                  ["QtCore"; "stacked_widget"; "QtGui"]%string _ ["PyQt5"%string]
                  eq_refl eq_refl eq_refl eq_refl eq_refl) "QtGui"%string _).
  simpl. auto.
Defined.

(** ** The show event of the specification *)

(** With a handled alignment a resize is one [setGeometry] on the top
    widget, with a rectangle that does not depend on the event, and then the
    superclass handler for a real event. *)
Lemma resizeEvent_handled (self : StackedWidget.t) :
  In (alignment self) handled_alignments ->
  exists x y w h,
    forall event,
      resizeEvent self event = with_super event (do_setGeometry Top x y w h self).
Proof.
  intros Ha. apply In_handled_cases in Ha.
  repeat (destruct Ha as [Ha | Ha]);
    destruct (QWidget.layoutDirection (bottom_widget self)) eqn:Hd;
    do 4 eexists; intros event;
    unfold resizeEvent, with_super; rewrite Ha, ?Hd; reflexivity.
Qed.

Lemma no_super_resize_among (l : list Call) :
  forallb is_top_setGeometry l = true -> filter is_super_resizeEvent l = [].
Proof.
  induction l as [| c l IH]; simpl; [reflexivity |].
  intros H. apply andb_prop in H as [Hc Hl].
  destruct c; try discriminate Hc. simpl. auto.
Qed.

(** C10: [showEvent] runs the resize handler with [None] and then the
    superclass show handler.  The pass leaves the two widgets exactly as a
    real resize event would; the superclass resize handler is called once for
    a real event and not at all in the pass of a show event.  The pass does
    recompute the geometry: with a handled alignment it issues one
    [setGeometry] on the top widget, right before the superclass show
    handler, with the rectangle a real resize issues, and the top widget then
    has that rectangle, which is the one of its alignment computed from the
    current geometry of the bottom widget. *)
Theorem show_event_resizes (self : StackedWidget.t) (event rev : QEvent) :
  showEvent self event = log (super_showEvent event) (resizeEvent self None)
  /\ top_widget (showEvent self event) = top_widget (resizeEvent self (Some rev))
  /\ bottom_widget (showEvent self event) = bottom_widget (resizeEvent self (Some rev))
  /\ calls (resizeEvent self (Some rev))
     = calls (resizeEvent self None) ++ [super_resizeEvent rev]
  /\ filter is_super_resizeEvent (calls (showEvent self event))
     = filter is_super_resizeEvent (calls self)
  /\ filter is_super_resizeEvent (calls (resizeEvent self (Some rev)))
     = filter is_super_resizeEvent (calls self) ++ [super_resizeEvent rev]
  /\ (In (alignment self) handled_alignments ->
      exists x y w h,
        calls (showEvent self event)
        = calls self ++ [setGeometry Top x y w h; super_showEvent event]
        /\ calls (resizeEvent self (Some rev))
           = calls self ++ [setGeometry Top x y w h; super_resizeEvent rev]
        /\ QWidget.geometry (top_widget (showEvent self event)) = QRect.make x y w h
        /\ top_rect (showEvent self event) = (x, y, w, h))
  /\ (alignment self = Qt.AlignRight ->
      top_rect (showEvent self event) = right_rect self)
  /\ (alignment self = Qt.AlignLeft ->
      top_rect (showEvent self event)
      = match QWidget.layoutDirection (bottom_widget self) with
        | Qt.RightToLeft => right_rect self
        | _ => left_rect self
        end)
  /\ (alignment self = Qt.AlignTop ->
      top_rect (showEvent self event) = top_edge_rect self)
  /\ (alignment self = Qt.AlignBottom ->
      top_rect (showEvent self event) = bottom_edge_rect self)
  /\ (alignment self = Qt.AlignCenter ->
      top_rect (showEvent self event) = centre_rect true true self)
  /\ (alignment self = Qt.AlignHCenter ->
      top_rect (showEvent self event) = centre_rect true false self)
  /\ (alignment self = Qt.AlignVCenter ->
      top_rect (showEvent self event) = centre_rect false true self)
  /\ (alignment self = Qt.AlignJustify ->
      top_rect (showEvent self event) = justify_rect self)
  /\ (alignment self = Qt.AlignAbsolute ->
      top_rect (showEvent self event) = absolute_rect self)
  /\ (alignment self = Qt.AlignBaseline ->
      top_rect (showEvent self event) = baseline_rect self).
Proof.
  destruct (resizeEvent_calls self None) as (p & Hp & Hall & _).
  assert (Hreal : calls (resizeEvent self (Some rev))
                  = calls (resizeEvent self None) ++ [super_resizeEvent rev])
    by (unfold resizeEvent; split_ifs; reflexivity).
  assert (Hshow : top_rect (showEvent self event) = top_rect (resizeEvent self None))
    by reflexivity.
  refine (conj eq_refl (conj _ (conj _ (conj Hreal (conj _ (conj _ (conj _ _))))))).
  - unfold showEvent, resizeEvent. split_ifs; reflexivity.
  - unfold showEvent, resizeEvent. split_ifs; reflexivity.
  - unfold showEvent, log. cbn [calls].
    rewrite Hp, app_nil_r, !filter_app, (no_super_resize_among p Hall).
    simpl. now rewrite !app_nil_r.
  - rewrite Hreal, Hp, app_nil_r, !filter_app, (no_super_resize_among p Hall).
    simpl. now rewrite app_nil_r.
  - intros Ha. destruct (resizeEvent_handled self Ha) as (x & y & w & h & Hh).
    exists x, y, w, h.
    unfold showEvent. rewrite (Hh None), (Hh (Some rev)).
    cbn [with_super log do_setGeometry on on_top calls top_widget QWidget.setGeometry
         QWidget.geometry].
    rewrite <- !app_assoc.
    refine (conj eq_refl (conj eq_refl (conj eq_refl _))).
    unfold top_rect. cbn [top_widget QWidget.geometry]. apply getRect_make.
  - rewrite Hshow.
    refine (conj _ (conj _ (conj _ (conj _ (conj _ (conj _ (conj _ (conj _ (conj _ _)))))))));
      intros Ha.
    + now apply resize_AlignRight.
    + destruct (QWidget.layoutDirection (bottom_widget self)) eqn:Hd.
      * apply resize_AlignLeft; [exact Ha | congruence].
      * now apply resize_AlignLeft_rtl.
      * apply resize_AlignLeft; [exact Ha | congruence].
    + now apply resize_AlignTop.
    + now apply resize_AlignBottom.
    + now apply resize_AlignCenter.
    + now apply resize_AlignHCenter.
    + now apply resize_AlignVCenter.
    + now apply resize_AlignJustify.
    + now apply resize_AlignAbsolute.
    + now apply resize_AlignBaseline.
Qed.

Lemma show_event_resizes_witness :
  calls (showEvent (table_overlay (button Qt.LeftToRight) checkbox Qt.AlignTop) QShowEvent)
  = calls (table_overlay (button Qt.LeftToRight) checkbox Qt.AlignTop)
    ++ [setGeometry Top 80 10 40 20; super_showEvent QShowEvent].
Proof.
  destruct (show_event_resizes
              (table_overlay (button Qt.LeftToRight) checkbox Qt.AlignTop)
              QShowEvent a_resize)
    as (_ & _ & _ & _ & _ & _ & Hplaces & _).
  destruct Hplaces as (x & y & w & h & Hcalls & _ & _ & Hrect).
  - simpl. do 4 right. left. reflexivity.
  - rewrite Hcalls. vm_compute in Hrect. injection Hrect as <- <- <- <-. reflexivity.
Defined.
